(** * wsutil: a WebSocket reverse proxy

    A shallow embedding of [wsutil.go]: the path join and request rewriter of
    [NewSingleHostReverseProxy], the handler [ServeHTTP] as an effectful
    computation over a store of URL objects and a trace of calls, and the
    header predicate [IsWebSocketRequest]. *)

From Stdlib Require Import Ascii ZArith Lia.
From Stdlib Require String.
From stdpp Require Import base option list strings gmap.

Local Open Scope Z_scope.
Local Open Scope nat_scope.

(** ** Go strings: a string is a sequence of bytes *)

(** [len(s)] *)
Abbreviation len := String.length (only parsing).

(** [s[i:j]] for [i <= j <= len(s)] *)
Definition slice (s : string) (i j : nat) : string :=
  String.substring i (j - i) s.

(** [s[i:]] for [i <= len(s)] *)
Definition slice_from (s : string) (i : nat) : string :=
  slice s i (len s).

(** The line feed, ['\n'] *)
Definition newline : string := String (ascii_of_nat 10) EmptyString.

(** [strings.HasPrefix]: [len(s) >= len(prefix) && s[:len(prefix)] == prefix] *)
Definition HasPrefix (s prefix : string) : bool :=
  (len prefix <=? len s) && String.eqb (slice s 0 (len prefix)) prefix.

(** [strings.HasSuffix]:
    [len(s) >= len(suffix) && s[len(s)-len(suffix):] == suffix] *)
Definition HasSuffix (s suffix : string) : bool :=
  (len suffix <=? len s)
  && String.eqb (slice_from s (len s - len suffix)) suffix.

(** [strings.Index]: the byte offset of the first occurrence of [substr] in
    [s], or [-1]. *)
Definition Index (s substr : string) : Z :=
  match String.index 0 substr s with
  | Some i => Z.of_nat i
  | None => (-1)%Z
  end.

(** [strings.Contains]: [Index(s, substr) >= 0] *)
Definition Contains (s substr : string) : bool :=
  (0 <=? Index s substr)%Z.

(** [strings.LastIndexByte]: the offset of the last occurrence of [c], or
    [-1].  The accumulator [i] is the offset of the head of [s]. *)
Fixpoint lastIndexByteFrom (i : Z) (s : string) (c : ascii) : Z :=
  match s with
  | EmptyString => (-1)%Z
  | String x s' =>
      let r := lastIndexByteFrom (i + 1)%Z s' c in
      if (0 <=? r)%Z then r else if Ascii.eqb x c then i else (-1)%Z
  end.

Definition LastIndexByte (s : string) (c : ascii) : Z :=
  lastIndexByteFrom 0%Z s c.

(** Bytes below [utf8.RuneSelf] (0x80) are the ASCII characters. *)
Definition isASCIIByte (c : ascii) : bool :=
  (nat_of_ascii c <? 128).

Definition isUpperByte (c : ascii) : bool :=
  (65 <=? nat_of_ascii c) && (nat_of_ascii c <=? 90).

Definition isLowerByte (c : ascii) : bool :=
  (97 <=? nat_of_ascii c) && (nat_of_ascii c <=? 122).

(** [c += 'a' - 'A'] on an upper-case letter *)
Definition lowerByte (c : ascii) : ascii :=
  if isUpperByte c then ascii_of_nat (nat_of_ascii c + 32) else c.

(** [c -= 'a' - 'A'] on a lower-case letter *)
Definition upperByte (c : ascii) : ascii :=
  if isLowerByte c then ascii_of_nat (nat_of_ascii c - 32) else c.

Fixpoint allBytes (p : ascii -> bool) (s : string) : bool :=
  match s with
  | EmptyString => true
  | String c s' => p c && allBytes p s'
  end.

Fixpoint anyByte (p : ascii -> bool) (s : string) : bool :=
  match s with
  | EmptyString => false
  | String c s' => p c || anyByte p s'
  end.

Fixpoint mapBytes (f : ascii -> ascii) (s : string) : string :=
  match s with
  | EmptyString => EmptyString
  | String c s' => String (f c) (mapBytes f s')
  end.

Section ToLower.

(** [strings.Map(unicode.ToLower, s)]: the branch [strings.ToLower] takes
    on a string that holds a byte outside ASCII.  The Unicode case tables
    are not part of this development; the mapping is a parameter. *)
Variable mapUnicodeToLower : string -> string.

(** [strings.ToLower]: an ASCII-only string is returned as it is when it
    has no upper-case letter and has each of ['A'..'Z'] replaced otherwise;
    any other string goes through the Unicode mapping. *)
Definition ToLower (s : string) : string :=
  if allBytes isASCIIByte s then
    if negb (anyByte isUpperByte s) then s else mapBytes lowerByte s
  else mapUnicodeToLower s.

End ToLower.

(** ** The path join of the rewriter *)

(** [singleJoiningSlash] ensures that the route ['/a/'] joined with ['/b']
    becomes ['/a/b']. *)
Definition singleJoiningSlash (a b : string) : string :=
  let aslash := HasSuffix a "/" in
  let bslash := HasPrefix b "/" in
  if aslash && bslash then a +:+ slice_from b 1
  else if negb aslash && negb bslash then a +:+ "/" +:+ b
  else a +:+ b.

(** ** net/textproto and net/http headers *)

(** [validHeaderFieldByte]: the token characters of RFC 7230. *)
Definition validHeaderFieldByte (c : ascii) : bool :=
  let n := nat_of_ascii c in
  isUpperByte c || isLowerByte c || ((48 <=? n) && (n <=? 57))
  || existsb (Ascii.eqb c)
       (String.list_ascii_of_string "!#$%&'*+-.^_`|~").

(** The canonicalizing loop: the first letter and every letter after a dash
    in upper case, the others in lower case. *)
Fixpoint canonicalize (upper : bool) (s : string) : string :=
  match s with
  | EmptyString => EmptyString
  | String c s' =>
      let c' := if upper then upperByte c else lowerByte c in
      String c' (canonicalize (Ascii.eqb c' "-") s')
  end.

(** [textproto.CanonicalMIMEHeaderKey]: a key that holds a byte that is no
    token character is returned unchanged. *)
Definition CanonicalMIMEHeaderKey (s : string) : string :=
  if allBytes validHeaderFieldByte s then canonicalize true s else s.

(** [http.Header] is [map[string][]string]. *)
Abbreviation Header := (gmap string (list string)).

(** [Header.Get]: the first value stored under the canonical form of [key],
    or the empty string. *)
Definition Header_Get (h : Header) (key : string) : string :=
  match h !! CanonicalMIMEHeaderKey key with
  | Some (v :: _) => v
  | _ => ""
  end.

(** ** URLs, requests and the store *)

(** Addresses of [url.URL] objects; an address the store does not map is a
    nil (or dangling) pointer. *)
Abbreviation loc := positive (only parsing).

Module url.

Record Userinfo : Type := mkUserinfo {
  username : string;
  password : string;
  passwordSet : bool
}.

Record URL : Type := mkURL {
  Scheme : string;
  Opaque : string;
  User : option Userinfo;
  Host : string;
  Path : string;
  RawPath : string;
  RawQuery : string;
  Fragment : string
}.

Definition set_Scheme (v : string) (u : URL) : URL :=
  mkURL v (Opaque u) (User u) (Host u) (Path u) (RawPath u) (RawQuery u)
    (Fragment u).

Definition set_Host (v : string) (u : URL) : URL :=
  mkURL (Scheme u) (Opaque u) (User u) v (Path u) (RawPath u) (RawQuery u)
    (Fragment u).

Definition set_Path (v : string) (u : URL) : URL :=
  mkURL (Scheme u) (Opaque u) (User u) (Host u) v (RawPath u) (RawQuery u)
    (Fragment u).

Definition set_RawQuery (v : string) (u : URL) : URL :=
  mkURL (Scheme u) (Opaque u) (User u) (Host u) (Path u) (RawPath u) v
    (Fragment u).

End url.

Module http.

(** The fields of [http.Request] a handler sees.  [URL] is a pointer into
    the store, [Body] a reference to the body stream; copying the struct
    copies both references. *)
Record Request : Type := mkRequest {
  Method : string;
  URL : loc;
  Proto : string;
  Header : gmap string (list string);
  Body : option positive;
  ContentLength : Z;
  Host : string;
  RemoteAddr : string;
  RequestURI : string
}.

End http.

(** The heap of [url.URL] objects. *)
Abbreviation Store := (gmap positive url.URL).

(** A statement [p.f = v] on the object at [p]; [None] is the nil
    dereference panic. *)
Definition assign (p : loc) (f : url.URL -> url.URL) (σ : Store)
  : option Store :=
  u ← σ !! p; Some (<[p := f u]> σ).

(** ** The request rewriter *)

(** [func(req *http.Request)]: a director gets a pointer to a request struct and
    may write to the struct and to everything it points to; [None] is a
    panic. *)
Definition DirectorFunc : Type :=
  http.Request -> Store -> option (http.Request * Store).

(** The closure built by [NewSingleHostReverseProxy]: [target] is the pointer
    it captured, [targetQuery] the string read from it when the proxy was
    built. *)
Definition director (target : loc) (targetQuery : string) : DirectorFunc :=
  fun req σ =>
    (* req.URL.Scheme = target.Scheme *)
    t ← σ !! target;
    σ ← assign (http.URL req) (url.set_Scheme (url.Scheme t)) σ;
    (* req.URL.Host = target.Host *)
    t ← σ !! target;
    σ ← assign (http.URL req) (url.set_Host (url.Host t)) σ;
    (* req.URL.Path = singleJoiningSlash(target.Path, req.URL.Path) *)
    t ← σ !! target;
    u ← σ !! http.URL req;
    σ ← assign (http.URL req)
          (url.set_Path (singleJoiningSlash (url.Path t) (url.Path u))) σ;
    u ← σ !! http.URL req;
    if String.eqb targetQuery "" || String.eqb (url.RawQuery u) "" then
      σ ← assign (http.URL req)
            (url.set_RawQuery (targetQuery +:+ url.RawQuery u)) σ;
      Some (req, σ)
    else
      σ ← assign (http.URL req)
            (url.set_RawQuery (targetQuery +:+ "&" +:+ url.RawQuery u)) σ;
      Some (req, σ).

(** ** Connections, errors and the proxy *)

(** A [net.Conn], by identity. *)
Abbreviation Conn := positive (only parsing).

(** A Go [error] value, by its message. *)
Abbreviation error := string (only parsing).

(** A Go result pair [(v, err)]: [err == nil] with a value, or an error. *)
Inductive result (A : Type) : Type :=
| Ok (a : A)
| Err (e : error).

Arguments Ok {A} a.
Arguments Err {A} e.

(** [ReverseProxy]: a nil function or logger is [None]. *)
Record ReverseProxy : Type := mkReverseProxy {
  Director : option DirectorFunc;
  Dial : option (string -> string -> result Conn);
  ErrorLog : option positive
}.

(** [NewSingleHostReverseProxy]: reads [target.RawQuery] once, when the proxy
    is built ([None]: [target] is nil), and returns a proxy that has only its
    [Director] set. *)
Definition NewSingleHostReverseProxy (target : loc) (σ : Store)
  : option ReverseProxy :=
  t ← σ !! target;
  let targetQuery := url.RawQuery t in
  Some (mkReverseProxy (Some (director target targetQuery)) None None).

(** ** Effects of the handler *)

(** An argument of a log call: [outreq.URL] or an error. *)
Inductive LogArg : Type :=
| ArgURL (u : loc)
| ArgErr (e : error).

(** The calls a handler makes, in the order it makes them. *)
Inductive Event : Type :=
| EvDial (network addr : string)
| EvSetHeader (key value : string)
| EvWriteHeader (code : Z)
| EvWriteBody (body : string)
| EvLog (logger : option positive) (format : string) (args : list LogArg)
| EvHijack
| EvWriteRequest (c : Conn)
| EvGoCopy (dst src : Conn)
| EvRecv
| EvClose (c : Conn).

(** The state a running function body threads: the store, the calls made so
    far, and the deferred calls, the latest first. *)
Record State : Type := mkState {
  store : Store;
  trace : list Event;
  deferred : list Event
}.

(** How a statement ends: control goes on with a value, the function
    returns, or it panics. *)
Inductive Flow (A : Type) : Type :=
| Next (a : A)
| Return
| Panic.

Arguments Next {A} a.
Arguments Return {A}.
Arguments Panic {A}.

Definition M (A : Type) : Type := State -> Flow A * State.

#[export] Instance M_ret : MRet M := fun A a s => (Next a, s).

#[export] Instance M_bind : MBind M := fun A B k m s =>
  match m s with
  | (Next a, s') => k a s'
  | (Return, s') => (Return, s')
  | (Panic, s') => (Panic, s')
  end.

Definition return_ : M unit := fun s => (Return, s).

Definition panic {A : Type} : M A := fun s => (Panic, s).

Definition emit (e : Event) : M unit := fun s =>
  (Next tt, mkState (store s) (trace s ++ [e]) (deferred s)).

(** [defer f()] *)
Definition defer (e : Event) : M unit := fun s =>
  (Next tt, mkState (store s) (trace s) (e :: deferred s)).

Definition getStore : M Store := fun s => (Next (store s), s).

Definition putStore (σ : Store) : M unit := fun s =>
  (Next tt, mkState σ (trace s) (deferred s)).

(** [*p] on a URL pointer *)
Definition deref (p : loc) : M url.URL :=
  σ ← getStore;
  match σ !! p with
  | Some u => mret u
  | None => panic
  end.

(** How a call ended. *)
Inductive Outcome : Type :=
| Returned
| Panicked.

(** A call of a function with body [body]: when the body ends, by return or
    by panic, the deferred calls run, the latest first. *)
Definition call (body : M unit) (σ : Store) : Outcome * Store * list Event :=
  let '(f, s) := body (mkState σ [] []) in
  (match f with Panic => Panicked | _ => Returned end,
   store s, trace s ++ deferred s).

(** [http.Error]: sets the content type to plain text, writes the status
    line, then the message and a newline. *)
Definition http_Error (msg : string) (code : Z) : M unit :=
  emit (EvSetHeader "Content-Type" "text/plain; charset=utf-8");;
  emit (EvWriteHeader code);;
  emit (EvWriteBody (msg +:+ newline)).

(** [log.Printf], or [l.Printf] for a logger [l] *)
Definition Printf (logger : option positive) (format : string)
    (args : list LogArg) : M unit :=
  emit (EvLog logger format args).

(** [p.Director(outreq)]: calling a nil function panics. *)
Definition callDirector (d : option DirectorFunc) (req : http.Request)
  : M http.Request :=
  match d with
  | None => panic
  | Some f =>
      σ ← getStore;
      match f req σ with
      | Some (req', σ') => putStore σ';; mret req'
      | None => panic
      end
  end.

(** The world outside the handler: the default dialer and what writing the
    request onto a connection gives. *)
Record Env : Type := mkEnv {
  net_Dial : string -> string -> result Conn;
  Request_Write : http.Request -> Store -> Conn -> option error
}.

(** A [http.ResponseWriter]; [Hijack] is [None] when it is no
    [http.Hijacker], and what [Hijack()] gives otherwise. *)
Record ResponseWriter : Type := mkResponseWriter {
  Hijack : option (result Conn)
}.

Definition ServeHTTP_body (env : Env) (p : ReverseProxy)
    (w : ResponseWriter) (r : http.Request) : M unit :=
  let logFunc := Printf (ErrorLog p) in
  (* outreq := new(http.Request); *outreq = *r: shallow copying *)
  let outreq := r in
  outreq ← callDirector (Director p) outreq;
  u ← deref (http.URL outreq);
  let host := url.Host u in
  (* if host does not specify a port, default to port 80 *)
  let host := if negb (Contains host ":") then host +:+ ":80" else host in
  let dial := match Dial p with Some f => f | None => net_Dial env end in
  emit (EvDial "tcp" host);;
  match dial "tcp" host with
  | Err err =>
      http_Error "Error forwarding request." 500;;
      logFunc "Error dialing websocket backend %s: %v"
        [ArgURL (http.URL outreq); ArgErr err];;
      return_
  | Ok d =>
      match Hijack w with
      | None =>
          http_Error "Not a hijacker?" 500;;
          return_
      | Some hj =>
          emit EvHijack;;
          match hj with
          | Err err =>
              logFunc "Hijack error: %v" [ArgErr err];;
              return_
          | Ok nc =>
              defer (EvClose nc);;
              defer (EvClose d);;
              emit (EvWriteRequest d);;
              σ ← getStore;
              match Request_Write env outreq σ d with
              | Some err =>
                  logFunc "Error copying request to target: %v" [ArgErr err];;
                  return_
              | None =>
                  emit (EvGoCopy d nc);;
                  emit (EvGoCopy nc d);;
                  emit EvRecv
              end
          end
      end
  end.

(** [ServeHTTP]: function to implement the [http.Handler] interface. *)
Definition ServeHTTP (env : Env) (p : ReverseProxy) (w : ResponseWriter)
    (r : http.Request) (σ : Store) : Outcome * Store * list Event :=
  call (ServeHTTP_body env p w r) σ.

(** ** Upgrade detection *)

Section UpgradeDetector.

Variable mapUnicodeToLower : string -> string.

(** [IsWebSocketRequest] returns a boolean indicating whether the request
    has the headers of a WebSocket handshake request. *)
Definition IsWebSocketRequest (r : http.Request) : bool :=
  if negb (String.eqb
             (ToLower mapUnicodeToLower (Header_Get (http.Header r) "Connection"))
             "upgrade")
  then false
  else if negb (String.eqb
                  (ToLower mapUnicodeToLower (Header_Get (http.Header r) "Upgrade"))
                  "websocket")
  then false
  else true.

End UpgradeDetector.

(** ** Notions the properties are stated with *)

(** The two bytes of [s] at offsets [i] and [i + 1] are both slashes. *)
Definition doubleSlashAt (s : string) (i : nat) : bool :=
  String.eqb (String.substring i 2 s) "//".

(** The joined path has a double slash at the seam: two adjacent slashes of
    which at least one sits next to the place where [a] ends, that is, at
    offset [len a - 1] or [len a] of the result. *)
Definition seamDoubleSlash (a b : string) : bool :=
  let r := singleJoiningSlash a b in
  let n := len a in
  (2 <=? n) && doubleSlashAt r (n - 2)
  || (1 <=? n) && doubleSlashAt r (n - 1)
  || doubleSlashAt r n.

(** A host carries an explicit port when a colon follows the closing bracket
    of an IPv6 literal, if there is one: [example.com:9000] and [[::1]:80]
    do, [example.com] and [[::1]] do not. *)
Definition hasPort (host : string) : bool :=
  (LastIndexByte host "]" <? LastIndexByte host ":")%Z.

(** The outbound URL as a function of the base target [t], the query string
    [targetQuery] taken from the base, and the inbound URL [u]. *)
Definition rewriteURL (t : url.URL) (targetQuery : string) (u : url.URL)
  : url.URL :=
  url.mkURL (url.Scheme t) (url.Opaque u) (url.User u) (url.Host t)
    (singleJoiningSlash (url.Path t) (url.Path u)) (url.RawPath u)
    (if String.eqb targetQuery "" || String.eqb (url.RawQuery u) ""
     then targetQuery +:+ url.RawQuery u
     else targetQuery +:+ "&" +:+ url.RawQuery u)
    (url.Fragment u).

(** The first value a header map stores under [key], if any. *)
Definition firstValue (h : Header) (key : string) : option string :=
  h !! key ≫= head.

(** The address the handler dials for a rewritten host: the host itself when
    it holds a colon, the host with [":80"] appended otherwise. *)
Definition dialAddress (host : string) : string :=
  if Contains host ":" then host else host +:+ ":80".

(** The dial function in effect: [p.Dial], or [net.Dial] when it is nil. *)
Definition dialer (env : Env) (p : ReverseProxy)
  : string -> string -> result Conn :=
  match Dial p with Some f => f | None => net_Dial env end.

Definition isDial (e : Event) : bool :=
  match e with EvDial _ _ => true | _ => false end.

Definition isHijack (e : Event) : bool :=
  match e with EvHijack => true | _ => false end.

Definition isLog (e : Event) : bool :=
  match e with EvLog _ _ _ => true | _ => false end.

Definition isClose (c : Conn) (e : Event) : bool :=
  match e with EvClose c' => Pos.eqb c c' | _ => false end.

(** How many calls of a trace satisfy [p]. *)
Fixpoint count (p : Event -> bool) (t : list Event) : nat :=
  match t with
  | [] => 0
  | e :: t' => (if p e then 1 else 0) + count p t'
  end.

(** ** Sample objects *)

(** The target [ws://backend:9000/base?k=v] at address 1 and the URL
    [http://front.example/bar?x=1#top] of an inbound request at address 2. *)
Definition sampleTarget : url.URL :=
  url.mkURL "ws" "" None "backend:9000" "/base" "" "k=v" "".

Definition sampleInbound : url.URL :=
  url.mkURL "http" "" None "front.example" "/bar" "" "x=1" "top".

Definition sampleStore : Store :=
  <[1%positive := sampleTarget]> (<[2%positive := sampleInbound]> ∅).

Definition sampleHeader : Header :=
  <["Connection" := ["Upgrade"]]> (<["Upgrade" := ["WebSocket"]]> ∅).

Definition sampleRequest : http.Request :=
  http.mkRequest "GET" 2%positive "HTTP/1.1" sampleHeader None 0%Z
    "front.example" "192.0.2.1:40000" "/bar?x=1".

(** A request whose [Connection] header holds two values. *)
Definition twoValueRequest : http.Request :=
  http.mkRequest "GET" 2%positive "HTTP/1.1"
    (<["Connection" := ["keep-alive"; "Upgrade"]]> sampleHeader) None 0%Z
    "front.example" "192.0.2.1:40000" "/bar?x=1".

(** The target [ws://[::1]/], an IPv6 literal with no port, in place of the
    sample target. *)
Definition ipv6Target : url.URL :=
  url.mkURL "ws" "" None "[::1]" "/" "" "" "".

Definition ipv6Store : Store :=
  <[1%positive := ipv6Target]> (<[2%positive := sampleInbound]> ∅).

(** A world where every dial is refused, one where dialing gives connection
    7, and one where dialing gives connection 7 and writing the request onto
    it fails. *)
Definition refusingEnv : Env :=
  mkEnv (fun _ _ => Err "connection refused") (fun _ _ _ => None).

Definition acceptingEnv : Env :=
  mkEnv (fun _ _ => Ok 7%positive) (fun _ _ _ => None).

Definition brokenPipeEnv : Env :=
  mkEnv (fun _ _ => Ok 7%positive) (fun _ _ _ => Some "broken pipe").

(** A writer that is no [http.Hijacker], one whose [Hijack] fails, and one
    whose [Hijack] hands over the client connection 8. *)
Definition plainWriter : ResponseWriter := mkResponseWriter None.

Definition failingHijacker : ResponseWriter :=
  mkResponseWriter (Some (Err "connection already hijacked")).

Definition hijackableWriter : ResponseWriter :=
  mkResponseWriter (Some (Ok 8%positive)).

(** The proxy [NewSingleHostReverseProxy] builds for the target at address 1
    with query string [targetQuery]. *)
Definition proxyFor (targetQuery : string) : ReverseProxy :=
  mkReverseProxy (Some (director 1%positive targetQuery)) None None.

(** The same inbound URL at another address of another store, pointed to by
    a request that shares no field with the sample request. *)
Definition relocatedStore : Store :=
  <[1%positive := sampleTarget]> (<[3%positive := sampleInbound]> ∅).

Definition relocatedRequest : http.Request :=
  http.mkRequest "POST" 3%positive "HTTP/1.0" ∅ (Some 5%positive) 12%Z
    "other.example" "198.51.100.7:1234" "/bar?x=1".

(** Unfolds the operations of [M] in a goal. *)
Ltac run :=
  cbv [mbind M_bind mret M_ret getStore putStore emit defer return_ panic
       Printf http_Error store trace deferred].

(** Starts a proof about a call of [ServeHTTP] whose director returned. *)
Ltac enter HD Hdir :=
  unfold ServeHTTP, call, ServeHTTP_body, callDirector, deref, dialer,
    dialAddress in *;
  rewrite HD; run; rewrite Hdir; run.

(** ** Further notions and samples *)

(** [strings.TrimSuffix]: [s] without [suffix] when it ends with it, [s]
    otherwise. *)
Definition TrimSuffix (s suffix : string) : string :=
  if HasSuffix s suffix then slice s 0 (len s - len suffix) else s.

(** [strings.TrimPrefix]: [s] without [prefix] when it starts with it, [s]
    otherwise. *)
Definition TrimPrefix (s prefix : string) : string :=
  if HasPrefix s prefix then slice_from s (len prefix) else s.

Definition isWriteRequest (e : Event) : bool :=
  match e with EvWriteRequest _ => true | _ => false end.

(** A call on the [http.ResponseWriter] that writes part of a response. *)
Definition isResponse (e : Event) : bool :=
  match e with
  | EvSetHeader _ _ | EvWriteHeader _ | EvWriteBody _ => true
  | _ => false
  end.

Definition isAnyClose (e : Event) : bool :=
  match e with EvClose _ => true | _ => false end.

Definition isGoCopy (e : Event) : bool :=
  match e with EvGoCopy _ _ => true | _ => false end.

(** A status line, when [e] writes one, has status 500. *)
Definition status500 (e : Event) : Prop :=
  match e with EvWriteHeader code => code = 500%Z | _ => True end.

(** A log line, when [e] writes one, goes to [logger]. *)
Definition logsTo (logger : option positive) (e : Event) : Prop :=
  match e with EvLog l _ _ => l = logger | _ => True end.


(** The sample store after the target object was overwritten with
    [wss://moved:443/v2?late=1]. *)
Definition movedTarget : url.URL :=
  url.mkURL "wss" "" None "moved:443" "/v2" "" "late=1" "".

Definition movedStore : Store :=
  <[1%positive := movedTarget]> sampleStore.

(** The sample store with the target [ws://backend.example/base], a host
    without a port. *)
Definition portlessTarget : url.URL :=
  url.mkURL "ws" "" None "backend.example" "/base" "" "" "".

Definition portlessStore : Store :=
  <[1%positive := portlessTarget]> sampleStore.

(** A request without headers, and one whose [Connection] value is a token
    list. *)
Definition bareRequest : http.Request :=
  http.mkRequest "GET" 2%positive "HTTP/1.1" ∅ None 0%Z
    "front.example" "192.0.2.1:40000" "/bar?x=1".

Definition tokenListRequest : http.Request :=
  http.mkRequest "GET" 2%positive "HTTP/1.1"
    (<["Connection" := ["keep-alive, Upgrade"]]> sampleHeader) None 0%Z
    "front.example" "192.0.2.1:40000" "/bar?x=1".

(** A request in the other case: [UPGRADE] and [websocket]. *)
Definition shoutingRequest : http.Request :=
  http.mkRequest "GET" 2%positive "HTTP/1.1"
    (<["Connection" := ["UPGRADE"]]> (<["Upgrade" := ["websocket"]]> ∅))
    None 0%Z "front.example" "192.0.2.1:40000" "/bar?x=1".

(** Splits a goal about a call of [ServeHTTP] into one goal per path through
    the handler. *)
Ltac paths env p w r σ :=
  unfold ServeHTTP, call, ServeHTTP_body, callDirector, deref;
  destruct (Director p) as [dir|]; run;
  [ destruct (dir r σ) as [[outreq σ'] |]; run;
    [ destruct (σ' !! http.URL outreq) as [u|]; run;
      [ destruct (match Dial p with Some f => f | None => net_Dial env end
                    "tcp"
                    (if negb (Contains (url.Host u) ":")
                     then url.Host u +:+ ":80" else url.Host u))
          as [d | e]; run;
        [ destruct (Hijack w) as [[nc | e] |]; run;
          [ destruct (Request_Write env outreq σ' d) as [e|]; run | | ]
        | ]
      | ]
    | ]
  | ];
  cbn [fst snd app].

(** * Properties *)

(** ** Strings *)

(** [s[0:len(s)]] is [s]. *)
Lemma substring_all (s : string) : String.substring 0 (len s) s = s.
Proof. induction s as [|c s IH]; simpl; [done | by rewrite IH]. Qed.

(** [s[1:]] drops the first byte. *)
Lemma slice_from_cons (c : ascii) (s : string) : slice_from (String c s) 1 = s.
Proof.
  unfold slice_from, slice. simpl. rewrite Nat.sub_0_r. apply substring_all.
Qed.

(** An offset that holds a byte is below the length. *)
Lemma get_lt_Some (s : string) (i : nat) (c : ascii) :
  String.get i s = Some c -> i < len s.
Proof.
  revert i. induction s as [|x s IH]; intros [|i] H; simpl in *; try done; try lia.
  apply IH in H. lia.
Qed.

(** The bytes of [a + b] are those of [a], then those of [b]. *)
Lemma get_append (a b : string) (i : nat) :
  String.get i (a +:+ b) =
  if i <? len a then String.get i a else String.get (i - len a) b.
Proof.
  revert i. induction a as [|x a IH]; intros i; simpl.
  - by rewrite Nat.sub_0_r.
  - destruct i as [|i]; [done |]. rewrite IH. simpl.
    change (S i <? S (len a)) with (i <? len a). done.
Qed.

(** A one-byte slice is the byte at its offset. *)
Lemma substring_1_get (s : string) (i : nat) (c : ascii) :
  String.substring i 1 s = String c EmptyString <-> String.get i s = Some c.
Proof.
  revert i. induction s as [|x s IH]; intros [|i]; simpl; try (split; congruence).
  - destruct s; simpl; split; congruence.
  - apply IH.
Qed.

(** A two-byte slice is the two bytes from its offset on. *)
Lemma substring_2_get (s : string) (i : nat) (c d : ascii) :
  String.substring i 2 s = String c (String d EmptyString)
  <-> String.get i s = Some c /\ String.get (S i) s = Some d.
Proof.
  revert i. induction s as [|x s IH]; intros [|i]; simpl.
  - split; [congruence | intros [? ?]; congruence].
  - split; [congruence | intros [? ?]; congruence].
  - split.
    + intros H. injection H as -> H. apply (substring_1_get s 0 d) in H. done.
    + intros [H1 H2]. injection H1 as ->. f_equal.
      by apply (substring_1_get s 0 d).
  - apply IH.
Qed.

(** [doubleSlashAt] by the two bytes it looks at. *)
Lemma doubleSlashAt_get (s : string) (i : nat) :
  doubleSlashAt s i = true
  <-> String.get i s = Some "/"%char /\ String.get (S i) s = Some "/"%char.
Proof.
  unfold doubleSlashAt. rewrite String.eqb_eq. apply substring_2_get.
Qed.

(** [HasPrefix b "/"]: the first byte of [b] is a slash. *)
Lemma HasPrefix_slash (b : string) :
  HasPrefix b "/" = true <-> String.get 0 b = Some "/"%char.
Proof.
  unfold HasPrefix, slice. rewrite andb_true_iff, String.eqb_eq, Nat.leb_le.
  change (len "/" - 0) with 1. rewrite substring_1_get. split.
  - tauto.
  - intros H. split; [| done]. apply get_lt_Some in H. simpl. lia.
Qed.

(** [HasPrefix b "//"]: the first two bytes of [b] are slashes. *)
Lemma HasPrefix_slash2 (b : string) :
  HasPrefix b "//" = true
  <-> String.get 0 b = Some "/"%char /\ String.get 1 b = Some "/"%char.
Proof.
  unfold HasPrefix, slice. rewrite andb_true_iff, String.eqb_eq, Nat.leb_le.
  change (len "//" - 0) with 2. rewrite substring_2_get. split.
  - tauto.
  - intros [H1 H2]. split; [| done]. apply get_lt_Some in H2. simpl. lia.
Qed.

(** [HasSuffix a "/"]: the last byte of [a] is a slash. *)
Lemma HasSuffix_slash (a : string) :
  HasSuffix a "/" = true
  <-> 1 <= len a /\ String.get (len a - 1) a = Some "/"%char.
Proof.
  unfold HasSuffix, slice_from, slice.
  rewrite andb_true_iff, String.eqb_eq, Nat.leb_le. simpl (len "/").
  split; intros [H1 H2]; split; try done.
  - apply substring_1_get. by replace (len a - (len a - 1)) with 1 in H2 by lia.
  - replace (len a - (len a - 1)) with 1 by lia. by apply substring_1_get.
Qed.

(** [HasSuffix a "//"]: the last two bytes of [a] are slashes. *)
Lemma HasSuffix_slash2 (a : string) :
  HasSuffix a "//" = true
  <-> 2 <= len a /\ String.get (len a - 2) a = Some "/"%char
      /\ String.get (len a - 1) a = Some "/"%char.
Proof.
  unfold HasSuffix, slice_from, slice.
  rewrite andb_true_iff, String.eqb_eq, Nat.leb_le. simpl (len "//").
  split.
  - intros [H1 H2]. split; [done |].
    replace (len a - (len a - 2)) with 2 in H2 by lia.
    apply substring_2_get in H2. by replace (S (len a - 2)) with (len a - 1) in H2 by lia.
  - intros (H1 & H2 & H3). split; [done |].
    replace (len a - (len a - 2)) with 2 by lia.
    apply substring_2_get. by replace (S (len a - 2)) with (len a - 1) by lia.
Qed.

(** The bytes of [b[1:]] are those of [b], shifted by one. *)
Lemma get_slice_from_1 (b : string) (i : nat) :
  String.get i (slice_from b 1) = String.get (S i) b.
Proof.
  destruct b as [|c b]; [by destruct i |]. by rewrite slice_from_cons.
Qed.

(** A string that ends with two slashes ends with one. *)
Lemma HasSuffix_slash2_slash (a : string) :
  HasSuffix a "//" = true -> HasSuffix a "/" = true.
Proof.
  rewrite HasSuffix_slash2, HasSuffix_slash. intros (? & ? & ?). split; [lia | done].
Qed.

(** The seam of [a + x], for whatever [x] is appended to [a]. *)
Lemma seam_append (a x : string) :
  (2 <=? len a) && doubleSlashAt (a +:+ x) (len a - 2)
  || (1 <=? len a) && doubleSlashAt (a +:+ x) (len a - 1)
  || doubleSlashAt (a +:+ x) (len a) = true
  <-> HasSuffix a "//" = true
      \/ (HasSuffix a "/" = true /\ String.get 0 x = Some "/"%char)
      \/ (String.get 0 x = Some "/"%char /\ String.get 1 x = Some "/"%char).
Proof.
  rewrite !orb_true_iff, !andb_true_iff, !Nat.leb_le, !doubleSlashAt_get.
  rewrite HasSuffix_slash2, HasSuffix_slash, !get_append.
  destruct (Nat.le_gt_cases 2 (len a)) as [H2 | H2].
  - replace (S (len a - 2)) with (len a - 1) by lia.
    replace (S (len a - 1)) with (len a) by lia.
    replace (S (len a)) with (len a + 1) by lia.
    destruct (Nat.ltb_spec (len a - 2) (len a)); [| lia].
    destruct (Nat.ltb_spec (len a - 1) (len a)); [| lia].
    destruct (Nat.ltb_spec (len a) (len a)); [lia |].
    destruct (Nat.ltb_spec (len a + 1) (len a)); [lia |].
    replace (len a - len a) with 0 by lia.
    replace (len a + 1 - len a) with 1 by lia.
    tauto.
  - destruct (Nat.le_gt_cases 1 (len a)) as [H1 | H1].
    + replace (len a) with 1 by lia. simpl.
      destruct a as [|c [|d a]]; simpl in *; try lia. intuition lia.
    + destruct a; simpl in *; [| lia]. intuition lia.
Qed.

(** ** The path join *)

(** The three branches of the join. *)
Lemma singleJoiningSlash_cases (a b : string) :
  (HasSuffix a "/" = true -> HasPrefix b "/" = true ->
     singleJoiningSlash a b = a +:+ slice_from b 1
     /\ "/" +:+ slice_from b 1 = b)
  /\ (HasSuffix a "/" = false -> HasPrefix b "/" = false ->
        singleJoiningSlash a b = a +:+ "/" +:+ b)
  /\ (HasSuffix a "/" <> HasPrefix b "/" -> singleJoiningSlash a b = a +:+ b).
Proof.
  unfold singleJoiningSlash. split; [| split].
  - intros Ha Hb. rewrite Ha, Hb. split; [done |].
    apply HasPrefix_slash in Hb. destruct b as [|c b]; [done |].
    rewrite slice_from_cons. simpl in Hb. injection Hb as ->. reflexivity.
  - by intros -> ->.
  - destruct (HasSuffix a "/"), (HasPrefix b "/"); simpl; congruence.
Qed.

(** When the joined path has a double slash at the seam. *)
Lemma seamDoubleSlash_iff (a b : string) :
  seamDoubleSlash a b = true
  <-> HasSuffix a "//" = true \/ HasPrefix b "//" = true.
Proof.
  unfold seamDoubleSlash, singleJoiningSlash.
  destruct (HasSuffix a "/") eqn:Ha, (HasPrefix b "/") eqn:Hb; cbn [andb negb];
    rewrite seam_append, ?get_slice_from_1, HasPrefix_slash2; simpl.
  - apply HasPrefix_slash in Hb. intuition congruence.
  - assert (String.get 0 b <> Some "/"%char) as Hb'.
    { intros H. apply HasPrefix_slash in H. congruence. }
    intuition congruence.
  - assert (HasSuffix a "//" = true -> False) as Ha'.
    { intros H. apply HasSuffix_slash2_slash in H. congruence. }
    apply HasPrefix_slash in Hb. intuition congruence.
  - assert (HasSuffix a "//" = true -> False) as Ha'.
    { intros H. apply HasSuffix_slash2_slash in H. congruence. }
    assert (String.get 0 b <> Some "/"%char) as Hb'.
    { intros H. apply HasPrefix_slash in H. congruence. }
    intuition congruence.
Qed.

(** C4, as the code has it.  The join is [a + b[1:]] when [a] ends with a
    slash and [b] starts with one ([b[1:]] being [b] without that slash),
    [a + "/" + b] when neither holds, and [a + b] otherwise; it joins
    ["/a/"] and ["/b"], and ["/a"] and ["/b"], to ["/a/b"].  The result has
    a double slash at the seam exactly when [a] already ends with ["//"] or
    [b] already starts with ["//"]: the join takes away one slash, never
    more. *)
Theorem singleJoiningSlash_join (a b : string) :
  (HasSuffix a "/" = true -> HasPrefix b "/" = true ->
     singleJoiningSlash a b = a +:+ slice_from b 1
     /\ "/" +:+ slice_from b 1 = b)
  /\ (HasSuffix a "/" = false -> HasPrefix b "/" = false ->
        singleJoiningSlash a b = a +:+ "/" +:+ b)
  /\ (HasSuffix a "/" <> HasPrefix b "/" -> singleJoiningSlash a b = a +:+ b)
  /\ singleJoiningSlash "/a/" "/b" = "/a/b"
  /\ singleJoiningSlash "/a" "/b" = "/a/b"
  /\ (seamDoubleSlash a b = true
      <-> HasSuffix a "//" = true \/ HasPrefix b "//" = true).
Proof.
  destruct (singleJoiningSlash_cases a b) as (H1 & H2 & H3).
  repeat (split; [assumption || reflexivity |]).
  apply seamDoubleSlash_iff.
Qed.

(** The join at [a = "/a"], [b = "b"], where a slash is inserted and the
    seam has no double slash. *)
Lemma singleJoiningSlash_join_witness :
  singleJoiningSlash "/a" "b" = "/a" +:+ "/" +:+ "b"
  /\ seamDoubleSlash "/a" "b" = false.
Proof.
  split.
  - apply (singleJoiningSlash_join "/a" "b"); reflexivity.
  - reflexivity.
Defined.

(** C4 as stated fails: for [a = "/a/"] and [b = "//b"] one slash of [b] is
    dropped and the result still has two slashes where the paths meet. *)
Lemma singleJoiningSlash_seam_counterexample :
  singleJoiningSlash "/a/" "//b" = "/a//b"
  /\ seamDoubleSlash "/a/" "//b" = true.
Proof. split; reflexivity. Qed.

(** ** The request rewriter *)

(** An assignment through a valid pointer overwrites the object there. *)
Lemma assign_lookup (p : positive) (f : url.URL -> url.URL) (σ : Store) (u : url.URL) :
  σ !! p = Some u -> assign p f σ = Some (<[p := f u]> σ).
Proof. intros H. unfold assign. by rewrite H. Qed.

(** The director overwrites the URL its request points to with
    [rewriteURL], whether or not that URL is the target itself. *)
Lemma director_spec (target : positive) (targetQuery : string)
    (req : http.Request) (σ : Store) (t u : url.URL) :
  σ !! target = Some t ->
  σ !! http.URL req = Some u ->
  director target targetQuery req σ
  = Some (req, <[http.URL req := rewriteURL t targetQuery u]> σ).
Proof.
  intros Ht Hu. unfold director, rewriteURL.
  destruct (decide (target = http.URL req)) as [Heq | Hne].
  - rewrite Heq in Ht. assert (t = u) as -> by congruence.
    rewrite Heq, Hu. cbn [mbind option_bind].
    repeat (first [ rewrite lookup_insert_eq
                  | erewrite assign_lookup by first [ exact Hu | apply lookup_insert_eq ] ];
            cbn [mbind option_bind]).
    cbn [url.RawQuery url.set_Path url.set_Host url.set_Scheme url.Path url.Host url.Scheme].
    destruct (String.eqb targetQuery "" || String.eqb (url.RawQuery u) "");
      rewrite !insert_insert_eq; reflexivity.
  - rewrite Ht. cbn [mbind option_bind].
    repeat (first [ rewrite lookup_insert_eq
                  | rewrite lookup_insert_ne by (intros E; apply Hne; symmetry; exact E)
                  | rewrite Ht
                  | erewrite assign_lookup by first [ exact Hu | apply lookup_insert_eq ] ];
            cbn [mbind option_bind]).
    cbn [url.RawQuery url.set_Path url.set_Host url.set_Scheme url.Path url.Host url.Scheme].
    destruct (String.eqb targetQuery "" || String.eqb (url.RawQuery u) "");
      rewrite !insert_insert_eq; reflexivity.
Qed.

(** The empty string is a right unit of concatenation. *)
Lemma append_empty_r (s : string) : s +:+ "" = s.
Proof.
  induction s as [|c s IH]; [done |].
  change (String c s +:+ "") with (String c (s +:+ "")). by rewrite IH.
Qed.

(** A director that returned had both pointers valid. *)
Lemma director_Some_inv (target : positive) (targetQuery : string)
    (req req' : http.Request) (σ σ' : Store) :
  director target targetQuery req σ = Some (req', σ') ->
  exists t u, σ !! target = Some t /\ σ !! http.URL req = Some u.
Proof.
  unfold director, assign. intros H.
  destruct (σ !! target) as [t|] eqn:Ht; [| discriminate].
  destruct (σ !! http.URL req) as [u|] eqn:Hu; [by eauto |].
  cbn [mbind option_bind] in H. discriminate.
Qed.

(** What [NewSingleHostReverseProxy] returns. *)
Lemma NewSingleHostReverseProxy_inv (target : positive) (σ0 : Store)
    (p : ReverseProxy) :
  NewSingleHostReverseProxy target σ0 = Some p ->
  exists t0, σ0 !! target = Some t0
    /\ p = mkReverseProxy (Some (director target (url.RawQuery t0))) None None.
Proof.
  unfold NewSingleHostReverseProxy. intros H.
  destruct (σ0 !! target) as [t0|]; [| discriminate].
  exists t0. split; [done |]. cbn [mbind option_bind] in H. congruence.
Qed.

(** The director of a proxy built for [target]. *)
Lemma built_director (target : positive) (σ0 : Store) (p : ReverseProxy)
    (dir : DirectorFunc) (t0 : url.URL) :
  σ0 !! target = Some t0 ->
  NewSingleHostReverseProxy target σ0 = Some p ->
  Director p = Some dir ->
  dir = director target (url.RawQuery t0).
Proof.
  intros Ht0 Hp Hd. apply NewSingleHostReverseProxy_inv in Hp as (t & Ht & ->).
  cbn [Director] in Hd. congruence.
Qed.

(** C5.  The director of a proxy built for a target with query [q1], run on
    a request whose URL has query [q2], returns and leaves as the request's
    query: the empty string when both are empty, [q1] when only [q2] is
    empty, [q2] when only [q1] is empty, and [q1 + "&" + q2] when neither
    is. *)
Theorem director_query (target : positive) (σ0 σ : Store) (p : ReverseProxy)
    (dir : DirectorFunc) (req : http.Request) (t0 t u : url.URL) :
  σ0 !! target = Some t0 ->
  NewSingleHostReverseProxy target σ0 = Some p ->
  Director p = Some dir ->
  σ !! target = Some t ->
  σ !! http.URL req = Some u ->
  exists σ' u',
    dir req σ = Some (req, σ')
    /\ σ' !! http.URL req = Some u'
    /\ (url.RawQuery t0 = "" -> url.RawQuery u = "" -> url.RawQuery u' = "")
    /\ (url.RawQuery t0 <> "" -> url.RawQuery u = "" ->
          url.RawQuery u' = url.RawQuery t0)
    /\ (url.RawQuery t0 = "" -> url.RawQuery u <> "" ->
          url.RawQuery u' = url.RawQuery u)
    /\ (url.RawQuery t0 <> "" -> url.RawQuery u <> "" ->
          url.RawQuery u' = url.RawQuery t0 +:+ "&" +:+ url.RawQuery u).
Proof.
  intros Ht0 Hp Hd Ht Hu. rewrite (built_director _ _ _ _ _ Ht0 Hp Hd).
  eexists _, _. split; [by apply director_spec |].
  split; [by apply lookup_insert_eq |].
  unfold rewriteURL. cbn [url.RawQuery].
  destruct (String.eqb_spec (url.RawQuery t0) "") as [E1 | E1],
    (String.eqb_spec (url.RawQuery u) "") as [E2 | E2]; cbn [orb];
    (split; [| split; [| split]]); intros A B; try congruence;
    try (rewrite E1); try (rewrite E2); try (rewrite append_empty_r);
    reflexivity.
Qed.

(** C8.  The output of the director is a function of the base target and
    the inbound URL alone: run in any two stores on any two requests, with
    the target as it was when the proxy was built and equal inbound URLs,
    it returns both times and leaves the same URL, [rewriteURL] of the target
    and the inbound URL. *)
Theorem director_pure (target : positive) (σ0 σ1 σ2 : Store)
    (p : ReverseProxy) (dir : DirectorFunc) (r1 r2 : http.Request)
    (t u : url.URL) :
  σ0 !! target = Some t ->
  NewSingleHostReverseProxy target σ0 = Some p ->
  Director p = Some dir ->
  σ1 !! target = Some t ->
  σ2 !! target = Some t ->
  σ1 !! http.URL r1 = Some u ->
  σ2 !! http.URL r2 = Some u ->
  exists σ1' σ2',
    dir r1 σ1 = Some (r1, σ1')
    /\ dir r2 σ2 = Some (r2, σ2')
    /\ σ1' !! http.URL r1 = Some (rewriteURL t (url.RawQuery t) u)
    /\ σ2' !! http.URL r2 = Some (rewriteURL t (url.RawQuery t) u).
Proof.
  intros Ht0 Hp Hd Ht1 Ht2 Hu1 Hu2.
  rewrite (built_director _ _ _ _ _ Ht0 Hp Hd).
  eexists _, _. split; [by apply director_spec |].
  split; [by apply director_spec |].
  by rewrite !lookup_insert_eq.
Qed.

(** C10.  A run of the director of [NewSingleHostReverseProxy] returns the
    request struct as it got it (method, header map, body reference and all
    other fields), leaves every other object of the store alone, and in the
    URL the request points to keeps [Opaque], [User], [RawPath] and
    [Fragment]. *)
Theorem director_frame (target : positive) (σ0 σ σ' : Store)
    (p : ReverseProxy) (dir : DirectorFunc) (req req' : http.Request) :
  NewSingleHostReverseProxy target σ0 = Some p ->
  Director p = Some dir ->
  dir req σ = Some (req', σ') ->
  req' = req
  /\ http.Method req' = http.Method req
  /\ http.Header req' = http.Header req
  /\ http.Body req' = http.Body req
  /\ (forall l : positive, l <> http.URL req -> σ' !! l = σ !! l)
  /\ exists u u',
       σ !! http.URL req = Some u
       /\ σ' !! http.URL req = Some u'
       /\ url.Opaque u' = url.Opaque u
       /\ url.User u' = url.User u
       /\ url.RawPath u' = url.RawPath u
       /\ url.Fragment u' = url.Fragment u.
Proof.
  intros Hp Hd Hrun.
  apply NewSingleHostReverseProxy_inv in Hp as (t0 & Ht0 & ->).
  cbn [Director] in Hd. injection Hd as <-.
  destruct (director_Some_inv _ _ _ _ _ _ Hrun) as (t & u & Ht & Hu).
  rewrite (director_spec _ _ _ _ _ _ Ht Hu) in Hrun.
  injection Hrun as <- <-.
  repeat (split; [reflexivity |]). split.
  - intros l Hl. by rewrite lookup_insert_ne.
  - exists u, (rewriteURL t (url.RawQuery t0) u).
    split; [done |]. split; [apply lookup_insert_eq |]. done.
Qed.

(** C5 at the sample request: [k=v] and [x=1] give [k=v&x=1]. *)
Lemma director_query_witness :
  exists σ' u',
    director 1%positive "k=v" sampleRequest sampleStore
    = Some (sampleRequest, σ')
    /\ σ' !! 2%positive = Some u'
    /\ url.RawQuery u' = "k=v&x=1".
Proof.
  destruct (director_query 1%positive sampleStore sampleStore
              (proxyFor "k=v") (director 1%positive "k=v") sampleRequest
              sampleTarget sampleTarget sampleInbound)
    as (σ' & u' & Hrun & Hu & _ & _ & _ & Hq); try reflexivity.
  exists σ', u'. split; [exact Hrun |]. split; [exact Hu |].
  apply Hq; discriminate.
Defined.

(** C8 at the sample request and at the relocated one. *)
Lemma director_pure_witness :
  exists σ1' σ2',
    director 1%positive "k=v" sampleRequest sampleStore
    = Some (sampleRequest, σ1')
    /\ director 1%positive "k=v" relocatedRequest relocatedStore
       = Some (relocatedRequest, σ2')
    /\ σ1' !! 2%positive = Some (rewriteURL sampleTarget "k=v" sampleInbound)
    /\ σ2' !! 3%positive = Some (rewriteURL sampleTarget "k=v" sampleInbound).
Proof.
  apply (director_pure 1%positive sampleStore sampleStore relocatedStore
           (proxyFor "k=v") (director 1%positive "k=v") sampleRequest
           relocatedRequest sampleTarget sampleInbound); reflexivity.
Defined.

(** C10 at the sample request: the fragment [top] survives the rewrite. *)
Lemma director_frame_witness :
  exists u',
    (<[2%positive := rewriteURL sampleTarget "k=v" sampleInbound]> sampleStore)
      !! 2%positive = Some u'
    /\ url.Fragment u' = "top".
Proof.
  destruct (director_frame 1%positive sampleStore sampleStore
              (<[2%positive := rewriteURL sampleTarget "k=v" sampleInbound]>
                 sampleStore)
              (proxyFor "k=v") (director 1%positive "k=v") sampleRequest
              sampleRequest)
    as (_ & _ & _ & _ & _ & u & u' & Hu & Hu' & _ & _ & _ & Hf);
    try reflexivity.
  exists u'. split; [exact Hu' |]. rewrite Hf.
  change (sampleStore !! 2%positive) with (Some sampleInbound) in Hu.
  injection Hu as <-. reflexivity.
Defined.

(** ** The handler *)

(** The test of the source, [!strings.Contains(host, ":")], against the one
    [dialAddress] is written with. *)
Lemma dialAddress_source (host : string) :
  (if negb (Contains host ":") then host +:+ ":80" else host)
  = dialAddress host.
Proof. unfold dialAddress. by destruct (Contains host ":"). Qed.

(** What [ServeHTTP] does to the store is what the director did. *)
Lemma ServeHTTP_store (env : Env) (p : ReverseProxy) (w : ResponseWriter)
    (r outreq : http.Request) (σ σ' : Store) (dir : DirectorFunc) :
  Director p = Some dir ->
  dir r σ = Some (outreq, σ') ->
  (ServeHTTP env p w r σ).1.2 = σ'.
Proof.
  intros HD Hdir. enter HD Hdir.
  destruct (σ' !! http.URL outreq) as [u|]; [| reflexivity].
  destruct (match Dial p with Some f => f | None => net_Dial env end _ _)
    as [d | e]; [| reflexivity].
  destruct (Hijack w) as [[nc | e] |]; try reflexivity.
  destruct (Request_Write env outreq σ' d); reflexivity.
Qed.

(** The handler dials once the director has returned, and the address is
    the rewritten host, with [":80"] appended when it holds no colon. *)
Lemma ServeHTTP_first_dial (env : Env) (p : ReverseProxy) (w : ResponseWriter)
    (r outreq : http.Request) (σ σ' : Store) (dir : DirectorFunc)
    (u : url.URL) :
  Director p = Some dir ->
  dir r σ = Some (outreq, σ') ->
  σ' !! http.URL outreq = Some u ->
  exists rest,
    (ServeHTTP env p w r σ).2
    = EvDial "tcp" (dialAddress (url.Host u)) :: rest.
Proof.
  intros HD Hdir Hu. rewrite <- dialAddress_source. enter HD Hdir.
  rewrite Hu. run.
  destruct (match Dial p with Some f => f | None => net_Dial env end _ _)
    as [d | e]; [| by eexists].
  destruct (Hijack w) as [[nc | e] |]; try (by eexists).
  destruct (Request_Write env outreq σ' d); by eexists.
Qed.

(** The writer is no hijacker: the client gets a 500 and the handler
    returns; nothing is closed. *)
Lemma ServeHTTP_not_hijacker (env : Env) (p : ReverseProxy)
    (w : ResponseWriter) (r outreq : http.Request) (σ σ' : Store)
    (dir : DirectorFunc) (u : url.URL) (d : positive) :
  Director p = Some dir ->
  dir r σ = Some (outreq, σ') ->
  σ' !! http.URL outreq = Some u ->
  dialer env p "tcp" (dialAddress (url.Host u)) = Ok d ->
  Hijack w = None ->
  ServeHTTP env p w r σ
  = (Returned, σ',
     [EvDial "tcp" (dialAddress (url.Host u));
      EvSetHeader "Content-Type" "text/plain; charset=utf-8";
      EvWriteHeader 500;
      EvWriteBody ("Not a hijacker?" +:+ newline)]).
Proof.
  intros HD Hdir Hu Hdial Hw. rewrite <- dialAddress_source in *.
  enter HD Hdir. rewrite Hu. run. rewrite Hdial, Hw. reflexivity.
Qed.

(** [Hijack] fails: the error is logged and the handler returns; nothing is
    closed. *)
Lemma ServeHTTP_hijack_error (env : Env) (p : ReverseProxy)
    (w : ResponseWriter) (r outreq : http.Request) (σ σ' : Store)
    (dir : DirectorFunc) (u : url.URL) (d : positive) (e : string) :
  Director p = Some dir ->
  dir r σ = Some (outreq, σ') ->
  σ' !! http.URL outreq = Some u ->
  dialer env p "tcp" (dialAddress (url.Host u)) = Ok d ->
  Hijack w = Some (Err e) ->
  ServeHTTP env p w r σ
  = (Returned, σ',
     [EvDial "tcp" (dialAddress (url.Host u));
      EvHijack;
      EvLog (ErrorLog p) "Hijack error: %v" [ArgErr e]]).
Proof.
  intros HD Hdir Hu Hdial Hw. rewrite <- dialAddress_source in *.
  enter HD Hdir. rewrite Hu. run. rewrite Hdial, Hw. reflexivity.
Qed.

(** Writing the request fails: the error is logged, and on return the two
    deferred calls close the backend connection, then the client's. *)
Lemma ServeHTTP_write_error (env : Env) (p : ReverseProxy)
    (w : ResponseWriter) (r outreq : http.Request) (σ σ' : Store)
    (dir : DirectorFunc) (u : url.URL) (d nc : positive) (e : string) :
  Director p = Some dir ->
  dir r σ = Some (outreq, σ') ->
  σ' !! http.URL outreq = Some u ->
  dialer env p "tcp" (dialAddress (url.Host u)) = Ok d ->
  Hijack w = Some (Ok nc) ->
  Request_Write env outreq σ' d = Some e ->
  ServeHTTP env p w r σ
  = (Returned, σ',
     [EvDial "tcp" (dialAddress (url.Host u));
      EvHijack;
      EvWriteRequest d;
      EvLog (ErrorLog p) "Error copying request to target: %v" [ArgErr e];
      EvClose d;
      EvClose nc]).
Proof.
  intros HD Hdir Hu Hdial Hw Hwr. rewrite <- dialAddress_source in *.
  enter HD Hdir. rewrite Hu. run. rewrite Hdial, Hw. run. rewrite Hwr.
  reflexivity.
Qed.

(** The request is written: two copies are started, the handler waits for
    the first to end, and on return both connections are closed. *)
Lemma ServeHTTP_bridged (env : Env) (p : ReverseProxy)
    (w : ResponseWriter) (r outreq : http.Request) (σ σ' : Store)
    (dir : DirectorFunc) (u : url.URL) (d nc : positive) :
  Director p = Some dir ->
  dir r σ = Some (outreq, σ') ->
  σ' !! http.URL outreq = Some u ->
  dialer env p "tcp" (dialAddress (url.Host u)) = Ok d ->
  Hijack w = Some (Ok nc) ->
  Request_Write env outreq σ' d = None ->
  ServeHTTP env p w r σ
  = (Returned, σ',
     [EvDial "tcp" (dialAddress (url.Host u));
      EvHijack;
      EvWriteRequest d;
      EvGoCopy d nc;
      EvGoCopy nc d;
      EvRecv;
      EvClose d;
      EvClose nc]).
Proof.
  intros HD Hdir Hu Hdial Hw Hwr. rewrite <- dialAddress_source in *.
  enter HD Hdir. rewrite Hu. run. rewrite Hdial, Hw. run. rewrite Hwr.
  reflexivity.
Qed.

(** A string holds a colon exactly when one of its bytes is a colon. *)
Lemma Contains_colon (s : string) :
  Contains s ":" = true <-> exists i, String.get i s = Some ":"%char.
Proof.
  unfold Contains, Index. split.
  - destruct (String.index 0 ":" s) as [m|] eqn:E; [| discriminate].
    intros _. exists m. apply String.index_correct1 in E.
    by apply substring_1_get.
  - intros [i Hi]. destruct (String.index 0 ":" s) as [m|] eqn:E.
    + apply Z.leb_le. lia.
    + exfalso. apply (String.index_correct3 0 i) in E; [| discriminate | lia].
      apply E. by apply substring_1_get.
Qed.

(** A byte that has a last offset occurs in the string. *)
Lemma lastIndexByteFrom_get (s : string) (c : ascii) (i : Z) :
  (0 <= i)%Z -> (0 <= lastIndexByteFrom i s c)%Z ->
  exists j, String.get j s = Some c.
Proof.
  revert i. induction s as [|x s IH]; intros i Hi H; cbn [lastIndexByteFrom] in H.
  - lia.
  - destruct (Z.leb_spec 0 (lastIndexByteFrom (i + 1) s c)) as [Hr | Hr].
    + destruct (IH (i + 1)%Z) as [j Hj]; [lia | lia |]. by exists (S j).
    + destruct (Ascii.eqb_spec x c) as [-> | _]; [by exists 0 | lia].
Qed.


(** A host that carries a port holds a colon. *)
Lemma hasPort_Contains (host : string) :
  hasPort host = true -> Contains host ":" = true.
Proof.
  unfold hasPort, LastIndexByte. intros H. apply Z.ltb_lt in H.
  apply Contains_colon. apply (lastIndexByteFrom_get host ":" 0); [lia |].
  assert (forall s i, (0 <= i)%Z -> (-1 <= lastIndexByteFrom i s "]")%Z) as Hlow.
  { induction s as [|x s IH]; intros i Hi; cbn [lastIndexByteFrom]; [lia |].
    destruct (Z.leb_spec 0 (lastIndexByteFrom (i + 1) s "]")); [lia |].
    destruct (Ascii.eqb x "]"); lia. }
  specialize (Hlow host 0%Z). lia.
Qed.

(** A host that carries a port is dialed as it is; a host without a colon
    is dialed on port 80. *)
Lemma dialAddress_hasPort (host : string) :
  (hasPort host = true -> dialAddress host = host)
  /\ (Contains host ":" = false -> dialAddress host = host +:+ ":80").
Proof.
  unfold dialAddress. split.
  - intros H. by rewrite (hasPort_Contains _ H).
  - by intros ->.
Qed.

(** C7.  When the dialer in effect returns an error for the address the
    handler computed, the handler returns and its calls are, in order: the
    one dial, the plain-text 500 response with the fixed message, and one
    log line with the dial error.  It dials once, never calls [Hijack], and
    logs once. *)
Theorem ServeHTTP_dial_failure (env : Env) (p : ReverseProxy)
    (w : ResponseWriter) (r outreq : http.Request) (σ σ' : Store)
    (dir : DirectorFunc) (u : url.URL) (e : string) :
  Director p = Some dir ->
  dir r σ = Some (outreq, σ') ->
  σ' !! http.URL outreq = Some u ->
  dialer env p "tcp" (dialAddress (url.Host u)) = Err e ->
  exists t,
    ServeHTTP env p w r σ = (Returned, σ', t)
    /\ t = [EvDial "tcp" (dialAddress (url.Host u));
            EvSetHeader "Content-Type" "text/plain; charset=utf-8";
            EvWriteHeader 500;
            EvWriteBody ("Error forwarding request." +:+ newline);
            EvLog (ErrorLog p) "Error dialing websocket backend %s: %v"
              [ArgURL (http.URL outreq); ArgErr e]]
    /\ count isDial t = 1
    /\ count isHijack t = 0
    /\ count isLog t = 1.
Proof.
  intros HD Hdir Hu Hdial. eexists. split; [| split; [reflexivity |]].
  - rewrite <- dialAddress_source in *.
    enter HD Hdir. rewrite Hu. run. rewrite Hdial. reflexivity.
  - repeat split.
Qed.

(** C7 at the sample request, with every dial refused and a writer that
    could be hijacked. *)
Lemma ServeHTTP_dial_failure_witness :
  exists t,
    ServeHTTP refusingEnv (proxyFor "k=v") hijackableWriter sampleRequest
      sampleStore
    = (Returned,
       <[2%positive := rewriteURL sampleTarget "k=v" sampleInbound]> sampleStore,
       t)
    /\ count isDial t = 1
    /\ count isHijack t = 0
    /\ count isLog t = 1.
Proof.
  destruct (ServeHTTP_dial_failure refusingEnv (proxyFor "k=v")
              hijackableWriter sampleRequest sampleRequest sampleStore
              (<[2%positive := rewriteURL sampleTarget "k=v" sampleInbound]>
                 sampleStore)
              (director 1%positive "k=v")
              (rewriteURL sampleTarget "k=v" sampleInbound)
              "connection refused")
    as (t & Hrun & _ & Hcounts); try reflexivity.
  exists t. split; [exact Hrun | exact Hcounts].
Defined.

(** C1 fails on the code.  The copy [ServeHTTP] makes of the request is
    shallow: it shares the [URL] pointer with the caller's request, and the
    director writes through it.  For the sample request, whose URL is
    [http://front.example/bar?x=1#top] before the call, the caller's URL is
    [ws://backend:9000/base/bar?k=v&x=1#top] after it. *)
Theorem ServeHTTP_rewrites_caller_URL :
  NewSingleHostReverseProxy 1%positive sampleStore = Some (proxyFor "k=v")
  /\ sampleStore !! http.URL sampleRequest
     = Some (url.mkURL "http" "" None "front.example" "/bar" "" "x=1" "top")
  /\ (ServeHTTP refusingEnv (proxyFor "k=v") plainWriter sampleRequest
        sampleStore).1.2 !! http.URL sampleRequest
     = Some (url.mkURL "ws" "" None "backend:9000" "/base/bar" "" "k=v&x=1"
               "top").
Proof. repeat split. Qed.

(** C2 fails on the code.  The closes are deferred only after [Hijack] has
    succeeded: when the writer is no hijacker, and when [Hijack] fails, the
    handler returns with the dialed connection 7 never closed.  On the path
    where writing the request fails both connections are closed, once
    each. *)
Theorem ServeHTTP_backend_left_open :
  (ServeHTTP acceptingEnv (proxyFor "k=v") plainWriter sampleRequest
     sampleStore).2
  = [EvDial "tcp" "backend:9000";
     EvSetHeader "Content-Type" "text/plain; charset=utf-8";
     EvWriteHeader 500;
     EvWriteBody ("Not a hijacker?" +:+ newline)]
  /\ (ServeHTTP acceptingEnv (proxyFor "k=v") failingHijacker sampleRequest
        sampleStore).2
     = [EvDial "tcp" "backend:9000";
        EvHijack;
        EvLog None "Hijack error: %v" [ArgErr "connection already hijacked"]]
  /\ count (isClose 7%positive)
       (ServeHTTP acceptingEnv (proxyFor "k=v") plainWriter sampleRequest
          sampleStore).2 = 0
  /\ count (isClose 7%positive)
       (ServeHTTP acceptingEnv (proxyFor "k=v") failingHijacker sampleRequest
          sampleStore).2 = 0
  /\ (ServeHTTP brokenPipeEnv (proxyFor "k=v") hijackableWriter sampleRequest
        sampleStore).2
     = [EvDial "tcp" "backend:9000";
        EvHijack;
        EvWriteRequest 7%positive;
        EvLog None "Error copying request to target: %v"
          [ArgErr "broken pipe"];
        EvClose 7%positive;
        EvClose 8%positive]
  /\ count (isClose 7%positive)
       (ServeHTTP brokenPipeEnv (proxyFor "k=v") hijackableWriter
          sampleRequest sampleStore).2 = 1
  /\ count (isClose 8%positive)
       (ServeHTTP brokenPipeEnv (proxyFor "k=v") hijackableWriter
          sampleRequest sampleStore).2 = 1.
Proof. repeat split. Qed.

(** C6 fails on the code.  The handler takes any colon in the host for a
    port: [example.com] is dialed as [example.com:80] and
    [example.com:9000] as it is, but the IPv6 literal [[::1]], which has no
    port, is dialed as [[::1]], with no [":80"] appended. *)
Theorem ServeHTTP_ipv6_literal_without_port :
  dialAddress "example.com" = "example.com:80"
  /\ dialAddress "example.com:9000" = "example.com:9000"
  /\ hasPort "[::1]" = false
  /\ dialAddress "[::1]" = "[::1]"
  /\ (ServeHTTP refusingEnv (proxyFor "") plainWriter sampleRequest
        ipv6Store).2
     = [EvDial "tcp" "[::1]";
        EvSetHeader "Content-Type" "text/plain; charset=utf-8";
        EvWriteHeader 500;
        EvWriteBody ("Error forwarding request." +:+ newline);
        EvLog None "Error dialing websocket backend %s: %v"
          [ArgURL 2%positive; ArgErr "connection refused"]].
Proof. repeat split. Qed.

(** ** Upgrade detection *)

(** The two keys the predicate reads are in canonical form. *)
Lemma canonical_Connection : CanonicalMIMEHeaderKey "Connection" = "Connection".
Proof. reflexivity. Qed.

Lemma canonical_Upgrade : CanonicalMIMEHeaderKey "Upgrade" = "Upgrade".
Proof. reflexivity. Qed.

(** [Get] reads the first value under a canonical key. *)
Lemma Header_Get_first (h : Header) (key v : string) (rest : list string) :
  CanonicalMIMEHeaderKey key = key ->
  h !! key = Some (v :: rest) -> Header_Get h key = v.
Proof. intros Hk H. unfold Header_Get. by rewrite Hk, H. Qed.

(** [Get] is the first value under a canonical key, or the empty string. *)
Lemma Header_Get_firstValue (h : Header) (key : string) :
  CanonicalMIMEHeaderKey key = key ->
  Header_Get h key = default "" (firstValue h key).
Proof.
  intros Hk. unfold Header_Get, firstValue. rewrite Hk.
  by destruct (h !! key) as [[|v l] |].
Qed.

(** [Get] gives the empty string for an absent key. *)
Lemma Header_Get_absent (h : Header) (key : string) :
  CanonicalMIMEHeaderKey key = key ->
  h !! key = None -> Header_Get h key = "".
Proof. intros Hk H. unfold Header_Get. by rewrite Hk, H. Qed.

Section UpgradeDetectorSpec.

Variable mapUnicodeToLower : string -> string.

(** The predicate is the conjunction of its two tests. *)
Lemma IsWebSocketRequest_iff (r : http.Request) :
  IsWebSocketRequest mapUnicodeToLower r = true
  <-> ToLower mapUnicodeToLower (Header_Get (http.Header r) "Connection") = "upgrade"
      /\ ToLower mapUnicodeToLower (Header_Get (http.Header r) "Upgrade") = "websocket".
Proof.
  unfold IsWebSocketRequest.
  destruct (String.eqb_spec (ToLower mapUnicodeToLower (Header_Get (http.Header r) "Connection")) "upgrade") as [E1 | E1];
  destruct (String.eqb_spec (ToLower mapUnicodeToLower (Header_Get (http.Header r) "Upgrade")) "websocket") as [E2 | E2];
  cbn [negb]; intuition congruence.
Qed.

(** C3.  [IsWebSocketRequest] is true exactly when the lower-cased value of
    the [Connection] header is ["upgrade"] and the lower-cased value of the
    [Upgrade] header is ["websocket"].  It is true for the headers
    [Connection: Upgrade] and [Upgrade: WebSocket], false when the value of
    [Connection] is ["keep-alive"], and false when there is no [Upgrade]
    header. *)
Theorem IsWebSocketRequest_spec (r : http.Request) :
  (IsWebSocketRequest mapUnicodeToLower r = true
   <-> ToLower mapUnicodeToLower (Header_Get (http.Header r) "Connection") = "upgrade"
       /\ ToLower mapUnicodeToLower (Header_Get (http.Header r) "Upgrade") = "websocket")
  /\ (Header_Get (http.Header r) "Connection" = "Upgrade" ->
      Header_Get (http.Header r) "Upgrade" = "WebSocket" ->
      IsWebSocketRequest mapUnicodeToLower r = true)
  /\ (Header_Get (http.Header r) "Connection" = "keep-alive" ->
      IsWebSocketRequest mapUnicodeToLower r = false)
  /\ (http.Header r !! "Upgrade" = None -> IsWebSocketRequest mapUnicodeToLower r = false).
Proof.
  split; [apply IsWebSocketRequest_iff |]. split; [| split].
  - intros Hc Hu. apply IsWebSocketRequest_iff. by rewrite Hc, Hu.
  - intros Hc. apply not_true_is_false. rewrite IsWebSocketRequest_iff, Hc.
    intros [H _]. discriminate H.
  - intros Hu. apply not_true_is_false. rewrite IsWebSocketRequest_iff.
    rewrite (Header_Get_absent _ "Upgrade" canonical_Upgrade Hu).
    intros [_ H]. discriminate H.
Qed.

(** C9.  A request whose [Connection] header has a first value that does
    not lower-case to ["upgrade"] is no WebSocket request, whatever values
    follow the first; and two requests whose [Connection] headers have the
    same first value, and whose [Upgrade] headers have, get the same
    answer. *)
Theorem IsWebSocketRequest_first_value (r : http.Request) :
  (forall (v : string) (rest : list string),
     http.Header r !! "Connection" = Some (v :: rest) ->
     ToLower mapUnicodeToLower v <> "upgrade" ->
     IsWebSocketRequest mapUnicodeToLower r = false)
  /\ (forall r' : http.Request,
        firstValue (http.Header r') "Connection"
        = firstValue (http.Header r) "Connection" ->
        firstValue (http.Header r') "Upgrade"
        = firstValue (http.Header r) "Upgrade" ->
        IsWebSocketRequest mapUnicodeToLower r'
        = IsWebSocketRequest mapUnicodeToLower r).
Proof.
  split.
  - intros v rest Hc Hv. apply not_true_is_false.
    rewrite IsWebSocketRequest_iff.
    rewrite (Header_Get_first _ "Connection" v rest canonical_Connection Hc).
    tauto.
  - intros r' Hc Hu. unfold IsWebSocketRequest.
    by rewrite !Header_Get_firstValue, Hc, Hu by reflexivity.
Qed.

End UpgradeDetectorSpec.

(** C3 at the sample request, with headers [Connection: Upgrade] and
    [Upgrade: WebSocket]. *)
Lemma IsWebSocketRequest_spec_witness :
  IsWebSocketRequest (fun s => s) sampleRequest = true.
Proof.
  apply (IsWebSocketRequest_spec (fun s => s) sampleRequest); reflexivity.
Defined.

(** C9 at a request with [Connection] values ["keep-alive"] and
    ["Upgrade"]. *)
Lemma IsWebSocketRequest_first_value_witness :
  IsWebSocketRequest (fun s => s) twoValueRequest = false.
Proof.
  apply (proj1 (IsWebSocketRequest_first_value (fun s => s) twoValueRequest)
           "keep-alive" ["Upgrade"]).
  - reflexivity.
  - discriminate.
Defined.

(** * Further properties *)

(** ** The path join, in normal form *)

(** Concatenation, one byte at a time. *)
Lemma append_cons (c : ascii) (s t : string) :
  String c s +:+ t = String c (s +:+ t).
Proof. reflexivity. Qed.

(** Concatenation is associative. *)
Lemma append_assoc (a b c : string) : (a +:+ b) +:+ c = a +:+ b +:+ c.
Proof.
  induction a as [|x a IH]; [done |]. rewrite !append_cons. by rewrite IH.
Qed.

(** The length of a concatenation. *)
Lemma length_append (a b : string) : len (a +:+ b) = len a + len b.
Proof.
  induction a as [|x a IH]; [done |]. rewrite append_cons. simpl. by rewrite IH.
Qed.

(** The last byte of a string with a non-empty tail is the tail's. *)
Lemma HasSuffix_cons (c : ascii) (s : string) :
  s <> "" -> HasSuffix (String c s) "/" = HasSuffix s "/".
Proof.
  intros Hs. apply eq_true_iff_eq. rewrite !HasSuffix_slash.
  destruct s as [|d s]; [done |]. simpl. rewrite !Nat.sub_0_r.
  intuition lia.
Qed.

(** Trimming goes past the first byte of a string of two bytes or more. *)
Lemma TrimSuffix_cons (c : ascii) (s : string) :
  s <> "" -> TrimSuffix (String c s) "/" = String c (TrimSuffix s "/").
Proof.
  intros Hs. unfold TrimSuffix. rewrite (HasSuffix_cons c s Hs).
  destruct (HasSuffix s "/"); [| done].
  unfold slice. destruct s as [|d s]; [done |]. simpl. by rewrite !Nat.sub_0_r.
Qed.

(** Trimming a one-byte string. *)
Lemma TrimSuffix_single (c : ascii) :
  TrimSuffix (String c "") "/" = if Ascii.eqb c "/" then "" else String c "".
Proof.
  unfold TrimSuffix, HasSuffix, slice_from, slice. simpl.
  destruct (Ascii.eqb_spec c "/") as [-> | Hc]; [done |].
  destruct (String.eqb_spec (String c "") "/") as [E | E]; [| done].
  congruence.
Qed.

(** A string that ends with a slash is its trimmed form and the slash. *)
Lemma TrimSuffix_slash (a : string) :
  HasSuffix a "/" = true -> TrimSuffix a "/" +:+ "/" = a.
Proof.
  induction a as [|c a IH]; [done |]. intros H.
  destruct a as [|d a].
  - rewrite TrimSuffix_single. apply HasSuffix_slash in H as [_ H].
    simpl in H. injection H as ->. reflexivity.
  - rewrite TrimSuffix_cons by done. rewrite HasSuffix_cons in H by done.
    rewrite append_cons. by rewrite IH.
Qed.

(** A string that does not end with a slash is its own trimmed form. *)
Lemma TrimSuffix_no_slash (a : string) :
  HasSuffix a "/" = false -> TrimSuffix a "/" = a.
Proof. unfold TrimSuffix. by intros ->. Qed.

(** Trimming the prefix looks at the first byte alone. *)
Lemma TrimPrefix_cons (c : ascii) (s : string) :
  TrimPrefix (String c s) "/" = if Ascii.eqb c "/" then s else String c s.
Proof.
  unfold TrimPrefix.
  destruct (HasPrefix (String c s) "/") eqn:H.
  - apply HasPrefix_slash in H. simpl in H. injection H as ->.
    by rewrite slice_from_cons.
  - destruct (Ascii.eqb_spec c "/") as [-> | Hc]; [| done].
    assert (HasPrefix (String "/" s) "/" = true) by (by apply HasPrefix_slash).
    congruence.
Qed.

(** The join as a concatenation of trimmed paths. *)
Lemma singleJoiningSlash_normal (a b : string) :
  singleJoiningSlash a b = TrimSuffix a "/" +:+ "/" +:+ TrimPrefix b "/".
Proof.
  unfold singleJoiningSlash.
  destruct (HasSuffix a "/") eqn:Ha, (HasPrefix b "/") eqn:Hb; cbn [andb negb].
  - rewrite <- append_assoc, (TrimSuffix_slash a Ha). unfold TrimPrefix.
    by rewrite Hb.
  - rewrite <- append_assoc, (TrimSuffix_slash a Ha). unfold TrimPrefix.
    by rewrite Hb.
  - rewrite (TrimSuffix_no_slash a Ha). destruct b as [|c b]; [done |].
    apply HasPrefix_slash in Hb. simpl in Hb. injection Hb as ->.
    by rewrite TrimPrefix_cons.
  - rewrite (TrimSuffix_no_slash a Ha). unfold TrimPrefix. by rewrite Hb.
Qed.

(** A concatenation with a non-empty tail is not empty. *)
Lemma append_nonempty_r (x y : string) : y <> "" -> x +:+ y <> "".
Proof. destruct x; [done |]. intros _. rewrite append_cons. discriminate. Qed.

(** Trimming acts on the tail of a concatenation when the tail is not
    empty. *)
Lemma TrimSuffix_append (x y : string) :
  y <> "" -> TrimSuffix (x +:+ y) "/" = x +:+ TrimSuffix y "/".
Proof.
  intros Hy. induction x as [|c x IH]; [done |].
  rewrite !append_cons, TrimSuffix_cons by (by apply append_nonempty_r).
  by rewrite IH.
Qed.

(** Trimming acts on the head of a concatenation when the head is not
    empty. *)
Lemma TrimPrefix_append (x y : string) :
  x <> "" -> TrimPrefix (x +:+ y) "/" = TrimPrefix x "/" +:+ y.
Proof.
  destruct x as [|c x]; [done |]. intros _.
  rewrite append_cons, !TrimPrefix_cons. by destruct (Ascii.eqb c "/").
Qed.

(** The trimmed form of a joined path. *)
Lemma TrimSuffix_join (a y : string) :
  TrimSuffix (a +:+ "/" +:+ y) "/"
  = if String.eqb y "" then a else a +:+ "/" +:+ TrimSuffix y "/".
Proof.
  destruct (String.eqb_spec y "") as [-> | Hy].
  - change ("/" +:+ "") with "/".
    rewrite (TrimSuffix_append a "/") by done.
    change (TrimSuffix "/" "/") with "". apply append_empty_r.
  - rewrite (TrimSuffix_append a ("/" +:+ y)) by done.
    change ("/" +:+ y) with (String "/" y). by rewrite TrimSuffix_cons.
Qed.

(** The trimmed form of a path joined on the right. *)
Lemma TrimPrefix_join (x c : string) :
  TrimPrefix (x +:+ "/" +:+ c) "/"
  = if String.eqb x "" then c else TrimPrefix x "/" +:+ "/" +:+ c.
Proof.
  destruct (String.eqb_spec x "") as [-> | Hx].
  - change ("" +:+ "/" +:+ c) with (String "/" c). by rewrite TrimPrefix_cons.
  - by apply TrimPrefix_append.
Qed.

(** Trimming one slash at each end of a string, in either order. *)
Lemma Trim_commute (b : string) :
  TrimSuffix (TrimPrefix b "/") "/" = TrimPrefix (TrimSuffix b "/") "/"
  /\ (TrimPrefix b "/" = "" <-> TrimSuffix b "/" = "").
Proof.
  destruct b as [|x [|y b]].
  - done.
  - rewrite TrimPrefix_cons, TrimSuffix_single.
    destruct (Ascii.eqb x "/") eqn:E; [done |].
    by rewrite TrimSuffix_single, TrimPrefix_cons, E.
  - rewrite TrimPrefix_cons, (TrimSuffix_cons x (String y b)) by done.
    rewrite TrimPrefix_cons.
    destruct (Ascii.eqb x "/") eqn:E.
    + split; [done |]. split; intros H; discriminate H.
    + rewrite (TrimSuffix_cons x (String y b)) by done.
      split; [done |]. split; intros H; discriminate H.
Qed.

(** The join is associative: joining [a] with [b] and the result with [c]
    gives the same path as joining [a] with the join of [b] and [c]. *)
Theorem singleJoiningSlash_assoc (a b c : string) :
  singleJoiningSlash (singleJoiningSlash a b) c
  = singleJoiningSlash a (singleJoiningSlash b c).
Proof.
  rewrite !singleJoiningSlash_normal, TrimSuffix_join, TrimPrefix_join.
  destruct (Trim_commute b) as [Hc He].
  destruct (String.eqb_spec (TrimPrefix b "/") "") as [E1 | E1],
    (String.eqb_spec (TrimSuffix b "/") "") as [E2 | E2];
    try tauto.
  rewrite Hc. by rewrite !append_assoc.
Qed.

(** A string with a slash appended ends with a slash. *)
Lemma HasSuffix_append_slash (a : string) : HasSuffix (a +:+ "/") "/" = true.
Proof.
  apply HasSuffix_slash. rewrite length_append, get_append. simpl.
  split; [lia |].
  destruct (Nat.ltb_spec (len a + 1 - 1) (len a)) as [H | H]; [lia |].
  by replace (len a + 1 - 1 - len a) with 0 by lia.
Qed.

(** Trimming takes away at most one byte. *)
Lemma TrimSuffix_length (a : string) :
  len (TrimSuffix a "/") <= len a <= len (TrimSuffix a "/") + 1.
Proof.
  destruct (HasSuffix a "/") eqn:H.
  - pose proof (TrimSuffix_slash a H) as E. apply (f_equal len) in E.
    rewrite length_append in E. simpl in E. lia.
  - rewrite (TrimSuffix_no_slash a H). lia.
Qed.

(** Trimming the prefix takes away at most one byte. *)
Lemma TrimPrefix_length (b : string) :
  len (TrimPrefix b "/") <= len b <= len (TrimPrefix b "/") + 1.
Proof.
  destruct b as [|c b]; [simpl; lia |]. rewrite TrimPrefix_cons.
  destruct (Ascii.eqb c "/"); simpl; lia.
Qed.

(** The join puts exactly one slash between [a] without one trailing slash
    and [b] without one leading slash: the result is that concatenation, the
    slash sits at the offset where the trimmed [a] ends, and the length is
    the two trimmed lengths and one. *)
Theorem singleJoiningSlash_trim (a b : string) :
  singleJoiningSlash a b = TrimSuffix a "/" +:+ "/" +:+ TrimPrefix b "/"
  /\ String.get (len (TrimSuffix a "/")) (singleJoiningSlash a b)
     = Some "/"%char
  /\ len (singleJoiningSlash a b)
     = len (TrimSuffix a "/") + 1 + len (TrimPrefix b "/").
Proof.
  rewrite singleJoiningSlash_normal. split; [reflexivity |]. split.
  - rewrite get_append.
    destruct (Nat.ltb_spec (len (TrimSuffix a "/")) (len (TrimSuffix a "/")));
      [lia |].
    by rewrite Nat.sub_diag.
  - rewrite !length_append. simpl. lia.
Qed.

(** Empty paths.  Joining [a] with the empty path gives [a] with a slash at
    its end, joining the empty path with [b] gives [b] with a slash at its
    start; a joined path is never empty, and its length differs from
    [len a + len b] by at most one. *)
Theorem singleJoiningSlash_empty (a b : string) :
  singleJoiningSlash a "" = (if HasSuffix a "/" then a else a +:+ "/")
  /\ singleJoiningSlash "" b = (if HasPrefix b "/" then b else "/" +:+ b)
  /\ HasSuffix (singleJoiningSlash a "") "/" = true
  /\ HasPrefix (singleJoiningSlash "" b) "/" = true
  /\ singleJoiningSlash a b <> ""
  /\ len a + len b <= len (singleJoiningSlash a b) + 1
  /\ len (singleJoiningSlash a b) <= len a + len b + 1.
Proof.
  assert (singleJoiningSlash a ""
          = if HasSuffix a "/" then a else a +:+ "/") as Ha.
  { unfold singleJoiningSlash. change (HasPrefix "" "/") with false.
    destruct (HasSuffix a "/"); cbn [andb negb]; [apply append_empty_r | done]. }
  assert (singleJoiningSlash "" b
          = if HasPrefix b "/" then b else "/" +:+ b) as Hb.
  { unfold singleJoiningSlash. change (HasSuffix "" "/") with false.
    by destruct (HasPrefix b "/"). }
  split; [exact Ha |]. split; [exact Hb |]. split; [| split; [| split]].
  - rewrite Ha. destruct (HasSuffix a "/") eqn:E; [done |].
    apply HasSuffix_append_slash.
  - rewrite Hb. destruct (HasPrefix b "/") eqn:E; [done |].
    by apply HasPrefix_slash.
  - rewrite singleJoiningSlash_normal. by apply append_nonempty_r.
  - rewrite singleJoiningSlash_normal, !length_append. simpl.
    pose proof (TrimSuffix_length a). pose proof (TrimPrefix_length b). lia.
Qed.

(** ** The director, at build time and at call time *)

(** The director reads the target twice over: the query string when the
    proxy is built, the scheme, host and path when it runs.  With the target
    [t0] at build time and [t] at call time, the rewritten URL has the scheme
    and host of [t], the join of the path of [t] and the inbound path, and
    the query merged from the query of [t0]. *)
Theorem director_build_and_call (target : positive) (σ0 σ : Store)
    (p : ReverseProxy) (dir : DirectorFunc) (req : http.Request)
    (t0 t u : url.URL) :
  σ0 !! target = Some t0 ->
  NewSingleHostReverseProxy target σ0 = Some p ->
  Director p = Some dir ->
  σ !! target = Some t ->
  σ !! http.URL req = Some u ->
  exists u',
    dir req σ = Some (req, <[http.URL req := u']> σ)
    /\ url.Scheme u' = url.Scheme t
    /\ url.Host u' = url.Host t
    /\ url.Path u' = singleJoiningSlash (url.Path t) (url.Path u)
    /\ url.RawQuery u'
       = (if String.eqb (url.RawQuery t0) ""
             || String.eqb (url.RawQuery u) ""
          then url.RawQuery t0 +:+ url.RawQuery u
          else url.RawQuery t0 +:+ "&" +:+ url.RawQuery u).
Proof.
  intros Ht0 Hp Hd Ht Hu. rewrite (built_director _ _ _ _ _ Ht0 Hp Hd).
  exists (rewriteURL t (url.RawQuery t0) u).
  split; [by apply director_spec | done].
Qed.

(** The director built for [ws://backend:9000/base?k=v], run after the
    target was overwritten with [wss://moved:443/v2?late=1]. *)
Lemma director_build_and_call_witness :
  exists u',
    director 1%positive "k=v" sampleRequest movedStore
    = Some (sampleRequest, <[2%positive := u']> movedStore)
    /\ url.Scheme u' = "wss"
    /\ url.Host u' = "moved:443"
    /\ url.Path u' = "/v2/bar"
    /\ url.RawQuery u' = "k=v&x=1".
Proof.
  apply (director_build_and_call 1%positive sampleStore movedStore
           (proxyFor "k=v") (director 1%positive "k=v") sampleRequest
           sampleTarget movedTarget sampleInbound); reflexivity.
Defined.

(** The director panics exactly when the target pointer or the URL pointer
    of the request is nil. *)
Theorem director_panics_iff (target : positive) (targetQuery : string)
    (req : http.Request) (σ : Store) :
  director target targetQuery req σ = None
  <-> σ !! target = None \/ σ !! http.URL req = None.
Proof.
  split.
  - intros H. destruct (σ !! target) as [t|] eqn:Ht; [| by left].
    destruct (σ !! http.URL req) as [u|] eqn:Hu; [| by right].
    rewrite (director_spec _ _ _ _ _ _ Ht Hu) in H. discriminate.
  - intros H. destruct (director target targetQuery req σ) as [[req' σ'] |] eqn:E;
      [| done].
    apply director_Some_inv in E as (t & u & Ht & Hu).
    destruct H; congruence.
Qed.

(** Serving the same request twice.  The URL object the request points to
    is rewritten by each call, so after two calls, whatever the dialer and
    the writer did, it is the rewrite of the rewrite: the base path stands
    in front of it twice. *)
Theorem ServeHTTP_twice (target : positive) (σ0 σ : Store)
    (p : ReverseProxy) (env env' : Env) (w w' : ResponseWriter)
    (r : http.Request) (t u : url.URL) :
  σ0 !! target = Some t ->
  NewSingleHostReverseProxy target σ0 = Some p ->
  σ !! target = Some t ->
  σ !! http.URL r = Some u ->
  target <> http.URL r ->
  exists u2,
    (ServeHTTP env' p w' r (ServeHTTP env p w r σ).1.2).1.2 !! http.URL r
    = Some u2
    /\ u2 = rewriteURL t (url.RawQuery t) (rewriteURL t (url.RawQuery t) u)
    /\ url.Path u2
       = singleJoiningSlash (url.Path t)
           (singleJoiningSlash (url.Path t) (url.Path u)).
Proof.
  intros Ht0 Hp Ht Hu Hne.
  apply NewSingleHostReverseProxy_inv in Hp as (t0 & Ht0' & ->).
  assert (t0 = t) as -> by congruence.
  set (q := url.RawQuery t).
  set (σ1 := <[http.URL r := rewriteURL t q u]> σ).
  assert (director target q r σ = Some (r, σ1)) as H1
    by (by apply director_spec).
  assert (σ1 !! target = Some t) as Ht1
    by (unfold σ1; by rewrite lookup_insert_ne).
  assert (σ1 !! http.URL r = Some (rewriteURL t q u)) as Hu1
    by (unfold σ1; apply lookup_insert_eq).
  pose proof (director_spec target q r σ1 t _ Ht1 Hu1) as H2.
  set (p := mkReverseProxy (Some (director target q)) None None).
  rewrite (ServeHTTP_store env p w r r σ σ1 (director target q) eq_refl H1).
  rewrite (ServeHTTP_store env' p w' r r σ1 _ (director target q) eq_refl H2).
  eexists. split; [apply lookup_insert_eq |]. done.
Qed.

(** The sample request served twice: [/bar] becomes [/base/base/bar]. *)
Lemma ServeHTTP_twice_witness :
  exists u2,
    (ServeHTTP acceptingEnv (proxyFor "k=v") hijackableWriter sampleRequest
       (ServeHTTP refusingEnv (proxyFor "k=v") plainWriter sampleRequest
          sampleStore).1.2).1.2 !! 2%positive
    = Some u2
    /\ url.Path u2 = "/base/base/bar"
    /\ url.RawQuery u2 = "k=v&k=v&x=1".
Proof.
  destruct (ServeHTTP_twice 1%positive sampleStore sampleStore
              (proxyFor "k=v") refusingEnv acceptingEnv plainWriter
              hijackableWriter sampleRequest sampleTarget sampleInbound)
    as (u2 & Hu2 & -> & _); try reflexivity; try discriminate.
  exists (rewriteURL sampleTarget "k=v" (rewriteURL sampleTarget "k=v" sampleInbound)).
  split; [exact Hu2 |]. split; reflexivity.
Defined.

(** ** The handler, on every path *)

(** A call whose director returned a request with a URL returns. *)
Lemma ServeHTTP_returns (env : Env) (p : ReverseProxy) (w : ResponseWriter)
    (r outreq : http.Request) (σ σ' : Store) (dir : DirectorFunc)
    (u : url.URL) :
  Director p = Some dir ->
  dir r σ = Some (outreq, σ') ->
  σ' !! http.URL outreq = Some u ->
  (ServeHTTP env p w r σ).1.1 = Returned.
Proof.
  intros HD Hdir Hu. enter HD Hdir. rewrite Hu. run.
  destruct (match Dial p with Some f => f | None => net_Dial env end _ _)
    as [d | e]; [| reflexivity].
  destruct (Hijack w) as [[nc | e] |]; try reflexivity.
  destruct (Request_Write env outreq σ' d); reflexivity.
Qed.


(** Nothing is tried twice.  In every call, for every proxy, writer and
    world, the handler dials at most once, calls [Hijack] at most once,
    writes the request at most once, logs at most one line and starts at
    most two copies. *)
Theorem ServeHTTP_at_most_once (env : Env) (p : ReverseProxy)
    (w : ResponseWriter) (r : http.Request) (σ : Store) :
  count isDial (ServeHTTP env p w r σ).2 <= 1
  /\ count isHijack (ServeHTTP env p w r σ).2 <= 1
  /\ count isWriteRequest (ServeHTTP env p w r σ).2 <= 1
  /\ count isLog (ServeHTTP env p w r σ).2 <= 1
  /\ count isGoCopy (ServeHTTP env p w r σ).2 <= 2.
Proof.
  paths env p w r σ; cbn; lia.
Qed.

(** The handler never both calls [Hijack] and writes a response through
    the [http.ResponseWriter], and the only status it ever writes is 500. *)
Theorem ServeHTTP_response_or_hijack (env : Env) (p : ReverseProxy)
    (w : ResponseWriter) (r : http.Request) (σ : Store) :
  (count isHijack (ServeHTTP env p w r σ).2 = 0
   \/ count isResponse (ServeHTTP env p w r σ).2 = 0)
  /\ Forall status500 (ServeHTTP env p w r σ).2.
Proof.
  paths env p w r σ; (split; [cbn; auto | repeat constructor]).
Qed.

(** Every log line of a call goes to [p.ErrorLog]: to the logger that is
    set, and to the standard logger only when none is. *)
Theorem ServeHTTP_logs_to_ErrorLog (env : Env) (p : ReverseProxy)
    (w : ResponseWriter) (r : http.Request) (σ : Store) :
  Forall (logsTo (ErrorLog p)) (ServeHTTP env p w r σ).2.
Proof.
  paths env p w r σ; repeat constructor.
Qed.

(** Once [Hijack] has handed over the client connection, whether writing
    the request then fails or the relay runs, the last two calls of the
    handler close the backend connection and then the client connection:
    each is closed exactly once, and nothing is closed before. *)
Theorem ServeHTTP_hijacked_closes_both (env : Env) (p : ReverseProxy)
    (w : ResponseWriter) (r outreq : http.Request) (σ σ' : Store)
    (dir : DirectorFunc) (u : url.URL) (d nc : positive) :
  Director p = Some dir ->
  dir r σ = Some (outreq, σ') ->
  σ' !! http.URL outreq = Some u ->
  dialer env p "tcp" (dialAddress (url.Host u)) = Ok d ->
  Hijack w = Some (Ok nc) ->
  d <> nc ->
  exists pre,
    (ServeHTTP env p w r σ).2 = pre ++ [EvClose d; EvClose nc]
    /\ count isAnyClose pre = 0
    /\ count (isClose d) (ServeHTTP env p w r σ).2 = 1
    /\ count (isClose nc) (ServeHTTP env p w r σ).2 = 1.
Proof.
  intros HD Hdir Hu Hdial Hw Hne.
  assert (Pos.eqb d nc = false) as E1 by (by apply Pos.eqb_neq).
  assert (Pos.eqb nc d = false) as E2 by (by apply Pos.eqb_neq).
  destruct (Request_Write env outreq σ' d) as [e|] eqn:Hwr.
  - rewrite (ServeHTTP_write_error env p w r outreq σ σ' dir u d nc e)
      by assumption.
    eexists [_; _; _; _]. split; [reflexivity |]. cbn.
    by rewrite !Pos.eqb_refl, E1, E2.
  - rewrite (ServeHTTP_bridged env p w r outreq σ σ' dir u d nc)
      by assumption.
    eexists [_; _; _; _; _; _]. split; [reflexivity |]. cbn.
    by rewrite !Pos.eqb_refl, E1, E2.
Qed.

(** A writer that is no [http.Hijacker]: after the dial succeeded the
    client gets a plain-text 500 with the message ["Not a hijacker?"], and
    the handler returns without a log line, without calling [Hijack] and
    without writing the request. *)
Theorem ServeHTTP_unhijackable (env : Env) (p : ReverseProxy)
    (w : ResponseWriter) (r outreq : http.Request) (σ σ' : Store)
    (dir : DirectorFunc) (u : url.URL) (d : positive) :
  Director p = Some dir ->
  dir r σ = Some (outreq, σ') ->
  σ' !! http.URL outreq = Some u ->
  dialer env p "tcp" (dialAddress (url.Host u)) = Ok d ->
  Hijack w = None ->
  exists t,
    ServeHTTP env p w r σ = (Returned, σ', t)
    /\ t = [EvDial "tcp" (dialAddress (url.Host u));
            EvSetHeader "Content-Type" "text/plain; charset=utf-8";
            EvWriteHeader 500;
            EvWriteBody ("Not a hijacker?" +:+ newline)]
    /\ count isLog t = 0
    /\ count isHijack t = 0
    /\ count isWriteRequest t = 0.
Proof.
  intros HD Hdir Hu Hdial Hw. eexists. split; [| split; [reflexivity |]].
  - by apply (ServeHTTP_not_hijacker env p w r outreq σ σ' dir u d).
  - repeat split.
Qed.


(** A proxy built by [NewSingleHostReverseProxy], serving a request with a
    URL while the target pointer is valid, never panics; it leaves the
    rewritten URL in the store, and its first call dials the host of the
    target as it is at call time, through [net.Dial]; it has no logger of
    its own. *)
Theorem ServeHTTP_default_proxy (target : positive) (σ0 σ : Store)
    (p : ReverseProxy) (env : Env) (w : ResponseWriter) (r : http.Request)
    (t0 t u : url.URL) :
  σ0 !! target = Some t0 ->
  NewSingleHostReverseProxy target σ0 = Some p ->
  σ !! target = Some t ->
  σ !! http.URL r = Some u ->
  (ServeHTTP env p w r σ).1.1 = Returned
  /\ (ServeHTTP env p w r σ).1.2
     = <[http.URL r := rewriteURL t (url.RawQuery t0) u]> σ
  /\ (exists rest,
        (ServeHTTP env p w r σ).2
        = EvDial "tcp" (dialAddress (url.Host t)) :: rest)
  /\ dialer env p = net_Dial env
  /\ ErrorLog p = None.
Proof.
  intros Ht0 Hp Ht Hu.
  apply NewSingleHostReverseProxy_inv in Hp as (t0' & Ht0' & ->).
  assert (t0' = t0) as -> by congruence.
  set (q := url.RawQuery t0). set (dir := director target q).
  set (p := mkReverseProxy (Some dir) None None).
  set (σ' := <[http.URL r := rewriteURL t q u]> σ).
  assert (dir r σ = Some (r, σ')) as Hdir by (by apply director_spec).
  assert (σ' !! http.URL r = Some (rewriteURL t q u)) as Hu'
    by apply lookup_insert_eq.
  split; [exact (ServeHTTP_returns env p w r r σ σ' dir _ eq_refl Hdir Hu') |].
  split; [exact (ServeHTTP_store env p w r r σ σ' dir eq_refl Hdir) |].
  split; [| done].
  exact (ServeHTTP_first_dial env p w r r σ σ' dir _ eq_refl Hdir Hu').
Qed.

(** [ServeHTTP_hijacked_closes_both] where writing the request fails. *)
Lemma ServeHTTP_hijacked_closes_both_witness :
  exists pre,
    (ServeHTTP brokenPipeEnv (proxyFor "k=v") hijackableWriter sampleRequest
       sampleStore).2
    = pre ++ [EvClose 7%positive; EvClose 8%positive]
    /\ count isAnyClose pre = 0.
Proof.
  destruct (ServeHTTP_hijacked_closes_both brokenPipeEnv (proxyFor "k=v")
              hijackableWriter sampleRequest sampleRequest sampleStore
              (<[2%positive := rewriteURL sampleTarget "k=v" sampleInbound]>
                 sampleStore)
              (director 1%positive "k=v")
              (rewriteURL sampleTarget "k=v" sampleInbound)
              7%positive 8%positive)
    as (pre & Ht & Hpre & _); try reflexivity; try discriminate.
  exists pre. split; [exact Ht | exact Hpre].
Defined.

(** [ServeHTTP_unhijackable] at the sample request. *)
Lemma ServeHTTP_unhijackable_witness :
  exists t,
    ServeHTTP acceptingEnv (proxyFor "k=v") plainWriter sampleRequest
      sampleStore
    = (Returned,
       <[2%positive := rewriteURL sampleTarget "k=v" sampleInbound]> sampleStore,
       t)
    /\ count isLog t = 0.
Proof.
  destruct (ServeHTTP_unhijackable acceptingEnv (proxyFor "k=v") plainWriter
              sampleRequest sampleRequest sampleStore
              (<[2%positive := rewriteURL sampleTarget "k=v" sampleInbound]>
                 sampleStore)
              (director 1%positive "k=v")
              (rewriteURL sampleTarget "k=v" sampleInbound) 7%positive)
    as (t & Hrun & _ & Hlog & _); try reflexivity.
  exists t. split; [exact Hrun | exact Hlog].
Defined.


(** [ServeHTTP_default_proxy] for the proxy built for the sample target,
    serving after the target was overwritten: it dials [moved:443]. *)
Lemma ServeHTTP_default_proxy_witness :
  (ServeHTTP refusingEnv (proxyFor "k=v") plainWriter sampleRequest
     movedStore).1.1 = Returned
  /\ exists rest,
       (ServeHTTP refusingEnv (proxyFor "k=v") plainWriter sampleRequest
          movedStore).2
       = EvDial "tcp" "moved:443" :: rest.
Proof.
  destruct (ServeHTTP_default_proxy 1%positive sampleStore movedStore
              (proxyFor "k=v") refusingEnv plainWriter sampleRequest
              sampleTarget movedTarget sampleInbound)
    as (Hret & _ & Hdial & _); try reflexivity.
  split; [exact Hret | exact Hdial].
Defined.

(** ** The address dialed *)

(** The last offset of a byte lies below the end of the string. *)
Lemma lastIndexByteFrom_bounds (s : string) (c : ascii) (i : Z) :
  (lastIndexByteFrom i s c = -1
   \/ i <= lastIndexByteFrom i s c < i + Z.of_nat (len s))%Z.
Proof.
  revert i. induction s as [|x s IH]; intros i; cbn [lastIndexByteFrom];
    [by left |].
  cbn [String.length]. destruct (IH (i + 1)%Z) as [E | E].
  - rewrite E. cbn. destruct (Ascii.eqb x c); [right; lia | by left].
  - destruct (Z.leb_spec 0 (lastIndexByteFrom (i + 1) s c)); [right; lia |].
    destruct (Ascii.eqb x c); [right; lia | by left].
Qed.

(** The last offset of a byte in [x + y] is its last offset in [y] when [y]
    holds it, and its last offset in [x] otherwise. *)
Lemma lastIndexByteFrom_append (x y : string) (c : ascii) (i : Z) :
  (0 <= i)%Z ->
  lastIndexByteFrom i (x +:+ y) c
  = if (0 <=? lastIndexByteFrom (i + Z.of_nat (len x)) y c)%Z
    then lastIndexByteFrom (i + Z.of_nat (len x)) y c
    else lastIndexByteFrom i x c.
Proof.
  revert i. induction x as [|a x IH]; intros i Hi.
  - cbn [String.length]. change ("" +:+ y) with y.
    replace (i + Z.of_nat 0)%Z with i by lia. cbn [lastIndexByteFrom].
    destruct (Z.leb_spec 0 (lastIndexByteFrom i y c)); [done |].
    destruct (lastIndexByteFrom_bounds y c i); lia.
  - change (String a x +:+ y) with (String a (x +:+ y)).
    cbn [lastIndexByteFrom String.length]. rewrite IH by lia.
    replace (i + 1 + Z.of_nat (len x))%Z with (i + Z.of_nat (S (len x)))%Z
      by lia.
    destruct (Z.leb_spec 0 (lastIndexByteFrom (i + Z.of_nat (S (len x))) y c))
      as [H | H].
    + destruct (Z.leb_spec 0 (lastIndexByteFrom (i + Z.of_nat (S (len x))) y c));
        [done | lia].
    + done.
Qed.

(** A string without a colon has no last colon. *)
Lemma LastIndexByte_no_colon (s : string) (i : Z) :
  (0 <= i)%Z -> Contains s ":" = false -> lastIndexByteFrom i s ":" = (-1)%Z.
Proof.
  intros Hi H. destruct (lastIndexByteFrom_bounds s ":" i) as [E | E]; [done |].
  destruct (lastIndexByteFrom_get s ":" i) as [j Hj]; [lia | lia |].
  assert (Contains s ":" = true) by (apply Contains_colon; eauto).
  congruence.
Qed.

(** The address the handler dials always holds a colon; a host that holds
    one is dialed as it is, and any other host is dialed with port 80. *)
Lemma dialAddress_port (host : string) :
  Contains (dialAddress host) ":" = true
  /\ (Contains host ":" = true -> dialAddress host = host)
  /\ (Contains host ":" = false ->
      dialAddress host = host +:+ ":80" /\ hasPort (dialAddress host) = true).
Proof.
  unfold dialAddress. destruct (Contains host ":") eqn:E.
  - split; [done |]. split; [done | discriminate].
  - assert (Contains (host +:+ ":80") ":" = true) as Hc.
    { apply Contains_colon. exists (len host). rewrite get_append.
      destruct (Nat.ltb_spec (len host) (len host)); [lia |].
      by rewrite Nat.sub_diag. }
    split; [exact Hc |]. split; [discriminate |]. intros _. split; [done |].
    unfold hasPort, LastIndexByte. apply Z.ltb_lt.
    rewrite !lastIndexByteFrom_append by lia.
    cbn [lastIndexByteFrom Ascii.eqb Z.leb]. cbn.
    destruct (Z.leb_spec 0 (0 + Z.of_nat (len host))); [| lia].
    destruct (lastIndexByteFrom_bounds host "]" 0) as [-> | Hb]; lia.
Qed.

(** Whatever the proxy, the writer and the world, a call that does not panic
    starts by dialing, over [tcp], an address that holds a colon, and dials
    nothing else. *)
Theorem ServeHTTP_dials_first (env : Env) (p : ReverseProxy)
    (w : ResponseWriter) (r : http.Request) (σ : Store) :
  (ServeHTTP env p w r σ).1.1 = Panicked
  \/ exists addr rest,
       (ServeHTTP env p w r σ).2 = EvDial "tcp" addr :: rest
       /\ Contains addr ":" = true
       /\ count isDial rest = 0.
Proof.
  paths env p w r σ; first [ by left | right ];
    rewrite dialAddress_source; eexists _, _;
    (split; [reflexivity | split; [apply dialAddress_port | reflexivity]]).
Qed.

(** The address dialed for the rewritten host: the host itself when it holds
    a colon, and the host with [":80"] appended, which then carries a port,
    when it holds none. *)
Theorem ServeHTTP_dial_port (env : Env) (p : ReverseProxy)
    (w : ResponseWriter) (r outreq : http.Request) (σ σ' : Store)
    (dir : DirectorFunc) (u : url.URL) :
  Director p = Some dir ->
  dir r σ = Some (outreq, σ') ->
  σ' !! http.URL outreq = Some u ->
  exists addr rest,
    (ServeHTTP env p w r σ).2 = EvDial "tcp" addr :: rest
    /\ (Contains (url.Host u) ":" = true -> addr = url.Host u)
    /\ (Contains (url.Host u) ":" = false ->
        addr = url.Host u +:+ ":80" /\ hasPort addr = true).
Proof.
  intros HD Hdir Hu.
  destruct (ServeHTTP_first_dial env p w r outreq σ σ' dir u HD Hdir Hu)
    as [rest Hrest].
  exists (dialAddress (url.Host u)), rest. split; [exact Hrest |].
  apply dialAddress_port.
Qed.

(** [ServeHTTP_dial_port] for the target [ws://backend.example/base]. *)
Lemma ServeHTTP_dial_port_witness :
  exists rest,
    (ServeHTTP refusingEnv (proxyFor "") plainWriter sampleRequest
       portlessStore).2
    = EvDial "tcp" "backend.example:80" :: rest.
Proof.
  destruct (ServeHTTP_dial_port refusingEnv (proxyFor "") plainWriter
              sampleRequest sampleRequest portlessStore
              (<[2%positive := rewriteURL portlessTarget "" sampleInbound]>
                 portlessStore)
              (director 1%positive "")
              (rewriteURL portlessTarget "" sampleInbound))
    as (addr & rest & Ht & _ & Hport); try reflexivity.
  destruct Hport as [-> _]; [reflexivity |].
  exists rest. exact Ht.
Defined.

(** ** Upgrade detection on ASCII values *)

(** Lower-casing the bytes of a string without upper-case letters changes
    nothing. *)
Lemma mapBytes_lowerByte_id (s : string) :
  anyByte isUpperByte s = false -> mapBytes lowerByte s = s.
Proof.
  induction s as [|c s IH]; [done |]. cbn [anyByte mapBytes].
  intros H. apply orb_false_iff in H as [Hc Hs].
  unfold lowerByte at 1. by rewrite Hc, IH.
Qed.

(** Mapping bytes keeps the length. *)
Lemma length_mapBytes (f : ascii -> ascii) (s : string) :
  len (mapBytes f s) = len s.
Proof. induction s as [|c s IH]; [done |]. simpl. by rewrite IH. Qed.

Section UpgradeDetectorASCII.

Variable mapUnicodeToLower : string -> string.

(** On an ASCII-only string [ToLower] lower-cases byte by byte, whatever the
    Unicode mapping is. *)
Lemma ToLower_ascii (s : string) :
  allBytes isASCIIByte s = true ->
  ToLower mapUnicodeToLower s = mapBytes lowerByte s.
Proof.
  intros H. unfold ToLower. rewrite H.
  destruct (anyByte isUpperByte s) eqn:E; cbn [negb]; [done |].
  by rewrite mapBytes_lowerByte_id.
Qed.

(** For header values of ASCII bytes the answer does not depend on the
    Unicode tables: it is true exactly when lower-casing the letters [A] to
    [Z] byte by byte gives ["upgrade"] and ["websocket"].  A value of any
    other length, such as a list of tokens, is refused. *)
Theorem IsWebSocketRequest_ascii (r : http.Request) :
  allBytes isASCIIByte (Header_Get (http.Header r) "Connection") = true ->
  allBytes isASCIIByte (Header_Get (http.Header r) "Upgrade") = true ->
  (IsWebSocketRequest mapUnicodeToLower r = true
   <-> mapBytes lowerByte (Header_Get (http.Header r) "Connection") = "upgrade"
       /\ mapBytes lowerByte (Header_Get (http.Header r) "Upgrade")
          = "websocket")
  /\ (IsWebSocketRequest mapUnicodeToLower r = true ->
      len (Header_Get (http.Header r) "Connection") = 7
      /\ len (Header_Get (http.Header r) "Upgrade") = 9).
Proof.
  intros Hc Hu.
  assert (IsWebSocketRequest mapUnicodeToLower r = true
          <-> mapBytes lowerByte (Header_Get (http.Header r) "Connection")
              = "upgrade"
              /\ mapBytes lowerByte (Header_Get (http.Header r) "Upgrade")
                 = "websocket") as Hiff.
  { rewrite IsWebSocketRequest_iff. by rewrite !ToLower_ascii. }
  split; [exact Hiff |]. intros H. apply Hiff in H as [H1 H2].
  apply (f_equal len) in H1, H2. rewrite length_mapBytes in H1, H2.
  done.
Qed.

(** A request that has no first value under [Connection], or none under
    [Upgrade] (the key is absent, or its list of values is empty), is no
    WebSocket request. *)
Theorem IsWebSocketRequest_missing (r : http.Request) :
  firstValue (http.Header r) "Connection" = None
  \/ firstValue (http.Header r) "Upgrade" = None ->
  IsWebSocketRequest mapUnicodeToLower r = false.
Proof.
  intros H. apply not_true_is_false. rewrite IsWebSocketRequest_iff.
  rewrite !Header_Get_firstValue by reflexivity.
  destruct H as [-> | ->]; intros [H1 H2]; discriminate.
Qed.

End UpgradeDetectorASCII.

(** [UPGRADE] and [websocket] are accepted and [keep-alive, Upgrade] is
    refused, here with a Unicode mapping that sends everything to
    ["upgrade"]. *)
Lemma IsWebSocketRequest_ascii_witness :
  IsWebSocketRequest (fun _ => "upgrade") shoutingRequest = true
  /\ IsWebSocketRequest (fun _ => "upgrade") tokenListRequest = false.
Proof.
  split.
  - apply (IsWebSocketRequest_ascii (fun _ => "upgrade") shoutingRequest);
      [reflexivity | reflexivity | split; reflexivity].
  - apply not_true_is_false. intros H.
    apply (IsWebSocketRequest_ascii (fun _ => "upgrade") tokenListRequest)
      in H as [H _]; [discriminate H | reflexivity | reflexivity].
Defined.

(** A request without headers. *)
Lemma IsWebSocketRequest_missing_witness :
  IsWebSocketRequest (fun s => s) bareRequest = false.
Proof.
  apply (IsWebSocketRequest_missing (fun s => s) bareRequest).
  left. reflexivity.
Defined.
